(** * CustomVideoRenderer: the stream sink state machine and its media sink

    A shallow embedding of [CustomVideoRenderer.cpp] (the snapshot that
    carries the D3D11 device manager and the sample request loop): the
    state/operation matrix, the format catalog, [CustomVideoStreamSink]
    and [CustomVideoRenderer].

    Conventions of the embedding.
    - A [DWORD] is an [N] below [2^32]; [++] and [--] are written with
      their wrap-around.  An [int] is a [Z] in two's complement on 32
      bits; [++] is written with its wrap-around.
    - An [HRESULT] is one of the codes the source names; [S_OK] is the
      only success code among them.
    - A method of a class is a function of the object's fields that
      returns the [HRESULT] and the fields after the call.  A method that
      can dereference a null pointer returns an [Outcome], whose second
      constructor is that fault.
    - A pointer argument is an [option] (or, for an out parameter whose
      target is returned by the function, a [bool] telling whether the
      pointer is non-null).
    - Calls of Media Foundation that only allocate ([MFCreateMediaType],
      [SetGUID] on a fresh type, [MFScheduleWorkItem]) are taken to
      succeed; [MFScheduleWorkItem] is recorded in the counter
      [scheduledWorkItems].
    - Every method runs as one atomic step. *)

From Stdlib Require Import NArith ZArith List Bool Lia.
From Equations Require Import Equations.
From Equations.Prop Require Import Logic.
Import ListNotations.

Local Open Scope N_scope.

(** ** Result codes *)

Inductive HRESULT : Type :=
| S_OK
| E_POINTER
| E_FAIL
| E_NOINTERFACE
| MF_E_SHUTDOWN
| MF_E_INVALIDREQUEST
| MF_E_INVALIDMEDIATYPE
| MF_E_NOT_INITIALIZED
| MF_E_NO_MORE_TYPES
| MF_E_INVALIDSTREAMNUMBER
| MF_E_INVALIDINDEX
| MF_E_STREAMSINKS_FIXED
| MF_E_NO_CLOCK
| MF_E_ATTRIBUTENOTFOUND.

Definition SUCCEEDED (hr : HRESULT) : bool :=
  match hr with S_OK => true | _ => false end.

Definition FAILED (hr : HRESULT) : bool := negb (SUCCEEDED hr).

(** The outcome of a call that may dereference a null pointer. *)
Inductive Outcome (A : Type) : Type :=
| Ret (a : A)
| AccessViolation.
Arguments Ret {A} a.
Arguments AccessViolation {A}.

Definition bind {A B : Type} (m : Outcome A) (k : A -> Outcome B) : Outcome B :=
  match m with
  | Ret a => k a
  | AccessViolation => AccessViolation
  end.

Notation "' p <- m ;; k" := (bind m (fun p => k))
  (at level 61, p pattern, m at next level, right associativity).

(** ** 32-bit unsigned arithmetic *)

Definition DWORD := N.
Definition DWORD_modulus : N := 2 ^ 32.
Definition DWORD_inc (n : DWORD) : DWORD := (n + 1) mod DWORD_modulus.
Definition DWORD_dec (n : DWORD) : DWORD := (n + (DWORD_modulus - 1)) mod DWORD_modulus.

(** ** 32-bit signed arithmetic

    An [int] is a [Z] from [INT_MIN] to [INT_MAX], in two's complement:
    [++] at [INT_MAX] gives [INT_MIN]. *)

Definition INT_MAX : Z := 2147483647.
Definition INT_MIN : Z := -2147483648.
Definition INT_wrap (z : Z) : Z := ((z + 2 ^ 31) mod 2 ^ 32 - 2 ^ 31)%Z.
Definition INT_inc (n : Z) : Z := INT_wrap (n + 1).

(** ** GUIDs of the media types and subtypes the source names *)

Inductive GUID : Type :=
| GUID_NULL
| MFMediaType_Video
| MFMediaType_Audio
| MFVideoFormat_NV12
| MFVideoFormat_IYUV
| MFVideoFormat_YUY2
| MFVideoFormat_YV12
| MFVideoFormat_RGB32
| MFVideoFormat_ARGB32
| MFVideoFormat_RGB24
| MFVideoFormat_RGB555
| MFVideoFormat_RGB565
| MFVideoFormat_RGB8
| MFVideoFormat_AYUV
| MFVideoFormat_UYVY
| MFVideoFormat_YVYU
| MFVideoFormat_YVU9
| MEDIASUBTYPE_V216
| MFVideoFormat_v410
| MFVideoFormat_I420
| MFVideoFormat_NV11
| MFVideoFormat_420O
| MFVideoFormat_AI44
| MFVideoFormat_P010
| MFVideoFormat_P016
| MFVideoFormat_Y210
| MFVideoFormat_Y216
| MFVideoFormat_Y410
| MFVideoFormat_Y416
| MFVideoFormat_H264
| GUID_other (data1 : N).

Definition GUID_eq_dec (a b : GUID) : {a = b} + {a <> b}.
Proof. decide equality. apply N.eq_dec. Defined.

Definition GUID_eqb (a b : GUID) : bool :=
  if GUID_eq_dec a b then true else false.

Lemma GUID_eqb_eq (a b : GUID) : GUID_eqb a b = true <-> a = b.
Proof.
  unfold GUID_eqb. destruct (GUID_eq_dec a b); split; congruence.
Qed.

Inductive DXGI_FORMAT : Type :=
| DXGI_FORMAT_UNKNOWN
| DXGI_FORMAT_B8G8R8X8_UNORM
| DXGI_FORMAT_R8G8B8A8_UNORM
| DXGI_FORMAT_AYUV
| DXGI_FORMAT_YUY2
| DXGI_FORMAT_NV12
| DXGI_FORMAT_NV11
| DXGI_FORMAT_AI44
| DXGI_FORMAT_P010
| DXGI_FORMAT_P016
| DXGI_FORMAT_Y210
| DXGI_FORMAT_Y216
| DXGI_FORMAT_Y410
| DXGI_FORMAT_Y416
| DXGI_FORMAT_420_OPAQUE.

(** ** The format catalog *)

Definition s_pVideoFormats : list GUID :=
  [ MFVideoFormat_NV12;
    MFVideoFormat_IYUV;
    MFVideoFormat_YUY2;
    MFVideoFormat_YV12;
    MFVideoFormat_RGB32;
    MFVideoFormat_RGB32;
    MFVideoFormat_RGB24;
    MFVideoFormat_RGB555;
    MFVideoFormat_RGB565;
    MFVideoFormat_RGB8;
    MFVideoFormat_AYUV;
    MFVideoFormat_UYVY;
    MFVideoFormat_YVYU;
    MFVideoFormat_YVU9;
    MEDIASUBTYPE_V216;
    MFVideoFormat_v410;
    MFVideoFormat_I420;
    MFVideoFormat_NV11;
    MFVideoFormat_420O ].

(** [sizeof(s_pVideoFormats) / sizeof(s_pVideoFormats[0])] *)
Definition s_dwNumVideoFormats : DWORD := N.of_nat (length s_pVideoFormats).

Record FormatEntry : Type := mkFormatEntry
  { Subtype : GUID;
    DXGIFormat : DXGI_FORMAT }.

Definition s_DXGIFormatMapping : list FormatEntry :=
  [ mkFormatEntry MFVideoFormat_RGB32 DXGI_FORMAT_B8G8R8X8_UNORM;
    mkFormatEntry MFVideoFormat_ARGB32 DXGI_FORMAT_R8G8B8A8_UNORM;
    mkFormatEntry MFVideoFormat_AYUV DXGI_FORMAT_AYUV;
    mkFormatEntry MFVideoFormat_YUY2 DXGI_FORMAT_YUY2;
    mkFormatEntry MFVideoFormat_NV12 DXGI_FORMAT_NV12;
    mkFormatEntry MFVideoFormat_NV11 DXGI_FORMAT_NV11;
    mkFormatEntry MFVideoFormat_AI44 DXGI_FORMAT_AI44;
    mkFormatEntry MFVideoFormat_P010 DXGI_FORMAT_P010;
    mkFormatEntry MFVideoFormat_P016 DXGI_FORMAT_P016;
    mkFormatEntry MFVideoFormat_Y210 DXGI_FORMAT_Y210;
    mkFormatEntry MFVideoFormat_Y216 DXGI_FORMAT_Y216;
    mkFormatEntry MFVideoFormat_Y410 DXGI_FORMAT_Y410;
    mkFormatEntry MFVideoFormat_Y416 DXGI_FORMAT_Y416;
    mkFormatEntry MFVideoFormat_420O DXGI_FORMAT_420_OPAQUE ].

(** ** States and operations of the stream *)

Inductive State : Type :=
| State_TypeNotSet
| State_Ready
| State_Started
| State_Paused
| State_Stopped.

Inductive StreamOperation : Type :=
| OpSetMediaType
| OpStart
| OpRestart
| OpPause
| OpStop
| OpProcessSample
| OpPlaceMarker.

(** The integer value of an enumerator, as the casts [(int)state] and
    [(int)op] give it. *)
Definition State_int (s : State) : nat :=
  match s with
  | State_TypeNotSet => 0
  | State_Ready => 1
  | State_Started => 2
  | State_Paused => 3
  | State_Stopped => 4
  end%nat.

Definition StreamOperation_int (op : StreamOperation) : nat :=
  match op with
  | OpSetMediaType => 0
  | OpStart => 1
  | OpRestart => 2
  | OpPause => 3
  | OpStop => 4
  | OpProcessSample => 5
  | OpPlaceMarker => 6
  end%nat.

Definition State_eqb (a b : State) : bool :=
  Nat.eqb (State_int a) (State_int b).

Definition TRUE : bool := true.
Definition FALSE : bool := false.

Definition ValidStateMatrix : list (list bool) :=
  (*               SetType Start  Restart Pause  Stop   Sample Marker *)
  [ (* NotSet *) [ TRUE;   FALSE; FALSE;  FALSE; FALSE; FALSE; FALSE ];
    (* Ready *)  [ TRUE;   TRUE;  TRUE;   TRUE;  TRUE;  FALSE; TRUE ];
    (* Start *)  [ TRUE;   TRUE;  FALSE;  TRUE;  TRUE;  TRUE;  TRUE ];
    (* Pause *)  [ TRUE;   TRUE;  TRUE;   TRUE;  TRUE;  TRUE;  TRUE ];
    (* Stop *)   [ TRUE;   TRUE;  FALSE;  FALSE; TRUE;  FALSE; TRUE ] ].

(** [ValidStateMatrix[(int)state][(int)op]] *)
Definition ValidStateMatrix_at (state : State) (op : StreamOperation) : bool :=
  nth (StreamOperation_int op) (nth (State_int state) ValidStateMatrix []) FALSE.

Definition ValidateOperation (state : State) (op : StreamOperation) : HRESULT :=
  let bTransitionAllowed := ValidStateMatrix_at state op in
  if bTransitionAllowed then S_OK else MF_E_INVALIDREQUEST.

(** ** Media types, events and samples: the objects of Media Foundation
    the sink is handed *)

Inductive AttributeKey : Type :=
| MF_MT_MAJOR_TYPE
| MF_MT_SUBTYPE.

(** An [IMFMediaType] is an attribute store; the source reads and writes
    the two GUID attributes below. *)
Record IMFMediaType : Type := mkMediaType
  { majorType : option GUID;
    subtype : option GUID }.

Definition MFCreateMediaType : IMFMediaType := mkMediaType None None.

Definition SetGUID (key : AttributeKey) (value : GUID) (mt : IMFMediaType)
  : IMFMediaType :=
  match key with
  | MF_MT_MAJOR_TYPE => mkMediaType (Some value) (subtype mt)
  | MF_MT_SUBTYPE => mkMediaType (majorType mt) (Some value)
  end.

(** [GetGUID(key, &out)]: the variable behind [out] keeps its value when
    the attribute is not set. *)
Definition GetGUID (key : AttributeKey) (out : GUID) (mt : IMFMediaType)
  : HRESULT * GUID :=
  match (match key with
         | MF_MT_MAJOR_TYPE => majorType mt
         | MF_MT_SUBTYPE => subtype mt
         end) with
  | Some g => (S_OK, g)
  | None => (MF_E_ATTRIBUTENOTFOUND, out)
  end.

Inductive MediaEventType : Type :=
| MEStreamSinkStarted
| MEStreamSinkRequestSample.

(** An event as [QueueEvent] is given it; [pvValue] is [NULL] at every
    call of the source. *)
Record MFEvent : Type := mkEvent
  { met : MediaEventType;
    guidExtendedType : GUID;
    hrStatus : HRESULT }.

(** An [IMFSample] answers the calls [ProcessSample] makes on it; the
    record holds those answers. *)
Record IMFSample : Type := mkSample
  { GetBufferCount_hr : HRESULT;
    cBuffers : DWORD;
    GetBufferByIndex_hr : HRESULT;
    ConvertToContiguousBuffer_hr : HRESULT }.

Definition MFTIME := Z.
Definition PRESENTATION_CURRENT_POSITION : MFTIME := 9223372036854775807%Z.

Definition SAMPLE_QUEUE_HIWATER_THRESHOLD : DWORD := 3.

Record sFraction : Type := mkFraction
  { Numerator : DWORD;
    Denominator : DWORD }.

(** ** CustomVideoStreamSink *)

Module CustomVideoStreamSink.

(** The fields of the class the methods below read or write.
    [m_pSink] tells whether the reference to the parent sink is held;
    [m_pEventQueue] is the queue's content, [None] once the pointer is
    reset; [m_count] is an [int], counted up with [INT_inc];
    [scheduledWorkItems] counts the calls of [MFScheduleWorkItem] made
    with [m_WorkQueueCB]. *)
Record t : Type := mk
  { m_pSink : bool;
    m_IsShutdown : bool;
    m_pCurrentType : option IMFMediaType;
    m_pEventQueue : option (list MFEvent);
    m_state : State;
    m_imageBytesPP : sFraction;
    m_dxgiFormat : DXGI_FORMAT;
    m_cOutstandingSampleRequests : DWORD;
    m_count : Z;
    scheduledWorkItems : nat }.

Definition set_m_pSink (v : bool) (this : t) : t :=
  mk v (m_IsShutdown this) (m_pCurrentType this) (m_pEventQueue this)
     (m_state this) (m_imageBytesPP this) (m_dxgiFormat this)
     (m_cOutstandingSampleRequests this) (m_count this) (scheduledWorkItems this).

Definition set_m_IsShutdown (v : bool) (this : t) : t :=
  mk (m_pSink this) v (m_pCurrentType this) (m_pEventQueue this)
     (m_state this) (m_imageBytesPP this) (m_dxgiFormat this)
     (m_cOutstandingSampleRequests this) (m_count this) (scheduledWorkItems this).

Definition set_m_pCurrentType (v : option IMFMediaType) (this : t) : t :=
  mk (m_pSink this) (m_IsShutdown this) v (m_pEventQueue this)
     (m_state this) (m_imageBytesPP this) (m_dxgiFormat this)
     (m_cOutstandingSampleRequests this) (m_count this) (scheduledWorkItems this).

Definition set_m_pEventQueue (v : option (list MFEvent)) (this : t) : t :=
  mk (m_pSink this) (m_IsShutdown this) (m_pCurrentType this) v
     (m_state this) (m_imageBytesPP this) (m_dxgiFormat this)
     (m_cOutstandingSampleRequests this) (m_count this) (scheduledWorkItems this).

Definition set_m_state (v : State) (this : t) : t :=
  mk (m_pSink this) (m_IsShutdown this) (m_pCurrentType this) (m_pEventQueue this)
     v (m_imageBytesPP this) (m_dxgiFormat this)
     (m_cOutstandingSampleRequests this) (m_count this) (scheduledWorkItems this).

Definition set_m_imageBytesPP (v : sFraction) (this : t) : t :=
  mk (m_pSink this) (m_IsShutdown this) (m_pCurrentType this) (m_pEventQueue this)
     (m_state this) v (m_dxgiFormat this)
     (m_cOutstandingSampleRequests this) (m_count this) (scheduledWorkItems this).

Definition set_m_dxgiFormat (v : DXGI_FORMAT) (this : t) : t :=
  mk (m_pSink this) (m_IsShutdown this) (m_pCurrentType this) (m_pEventQueue this)
     (m_state this) (m_imageBytesPP this) v
     (m_cOutstandingSampleRequests this) (m_count this) (scheduledWorkItems this).

Definition set_m_cOutstandingSampleRequests (v : DWORD) (this : t) : t :=
  mk (m_pSink this) (m_IsShutdown this) (m_pCurrentType this) (m_pEventQueue this)
     (m_state this) (m_imageBytesPP this) (m_dxgiFormat this)
     v (m_count this) (scheduledWorkItems this).

Definition set_m_count (v : Z) (this : t) : t :=
  mk (m_pSink this) (m_IsShutdown this) (m_pCurrentType this) (m_pEventQueue this)
     (m_state this) (m_imageBytesPP this) (m_dxgiFormat this)
     (m_cOutstandingSampleRequests this) v (scheduledWorkItems this).

Definition set_scheduledWorkItems (v : nat) (this : t) : t :=
  mk (m_pSink this) (m_IsShutdown this) (m_pCurrentType this) (m_pEventQueue this)
     (m_state this) (m_imageBytesPP this) (m_dxgiFormat this)
     (m_cOutstandingSampleRequests this) (m_count this) v.

(** The constructor, with the member initialisers of the class; the
    event queue [MFCreateEventQueue] makes is empty. *)
Definition new : t :=
  {| m_pSink := true;
     m_IsShutdown := false;
     m_pCurrentType := None;
     m_pEventQueue := Some [];
     m_state := State_TypeNotSet;
     m_imageBytesPP := mkFraction 1 1;
     m_dxgiFormat := DXGI_FORMAT_UNKNOWN;
     m_cOutstandingSampleRequests := 0;
     m_count := 0%Z;
     scheduledWorkItems := 0%nat |}.

Definition CheckShutdown (this : t) : HRESULT :=
  if m_IsShutdown this then MF_E_SHUTDOWN else S_OK.

Definition NeedMoreSamples (this : t) : bool :=
  let cSamplesInFlight := m_cOutstandingSampleRequests this in
  cSamplesInFlight <? SAMPLE_QUEUE_HIWATER_THRESHOLD.

(** [QueueEventParamVar] appends to the queue. *)
Definition QueueEvent (met : MediaEventType) (guidExtendedType : GUID)
    (hrStatus : HRESULT) (this : t) : Outcome (HRESULT * t) :=
  let hr := CheckShutdown this in
  if SUCCEEDED hr then
    match m_pEventQueue this with
    | Some q =>
        Ret (S_OK,
             set_m_pEventQueue (Some (q ++ [mkEvent met guidExtendedType hrStatus])) this)
    | None => AccessViolation
    end
  else Ret (hr, this).

(** [MFScheduleWorkItem(&m_WorkQueueCB, nullptr, -interval, &cancelKey)] *)
Definition QueueRequest (this : t) : HRESULT * t :=
  let hr := S_OK in
  if SUCCEEDED hr then
    (S_OK, set_scheduledWorkItems (S (scheduledWorkItems this)) this)
  else (hr, this).

Lemma QueueEvent_counter met g st this hr this' :
  QueueEvent met g st this = Ret (hr, this') ->
  m_cOutstandingSampleRequests this' = m_cOutstandingSampleRequests this.
Proof.
  unfold QueueEvent. destruct (SUCCEEDED (CheckShutdown this)).
  - destruct (m_pEventQueue this); [|discriminate].
    intros [= _ <-]. reflexivity.
  - intros [= _ <-]. reflexivity.
Qed.

Lemma RequestSamples_measure_decreases (this this' : t) :
  NeedMoreSamples this = true ->
  m_cOutstandingSampleRequests this'
  = DWORD_inc (m_cOutstandingSampleRequests this) ->
  (N.to_nat (SAMPLE_QUEUE_HIWATER_THRESHOLD - m_cOutstandingSampleRequests this')
   < N.to_nat (SAMPLE_QUEUE_HIWATER_THRESHOLD - m_cOutstandingSampleRequests this))%nat.
Proof.
  unfold NeedMoreSamples, SAMPLE_QUEUE_HIWATER_THRESHOLD.
  intros Hneed ->. apply N.ltb_lt in Hneed.
  unfold DWORD_inc, DWORD_modulus.
  rewrite N.mod_small by (apply N.lt_trans with 4; [lia | reflexivity]).
  lia.
Qed.

(** The [while (NeedMoreSamples())] loop of [RequestSamples]; its [hr]
    is overwritten after the loop and is not returned here. *)
Equations? RequestSamples_while (this : t) : Outcome t
  by wf (N.to_nat (SAMPLE_QUEUE_HIWATER_THRESHOLD - m_cOutstandingSampleRequests this)) lt :=
  RequestSamples_while this with inspect (NeedMoreSamples this) => {
    | exist _ false _ := Ret this;
    | exist _ true Hneed with inspect (FAILED (CheckShutdown this)) => {
        | exist _ true _ := Ret this;
        | exist _ false _
            with inspect (QueueEvent MEStreamSinkRequestSample GUID_NULL S_OK
                            (set_m_cOutstandingSampleRequests
                               (DWORD_inc (m_cOutstandingSampleRequests this)) this)) => {
            | exist _ AccessViolation _ := AccessViolation;
            | exist _ (Ret (hr, this')) Hq := RequestSamples_while this' } } }.
Proof.
  apply QueueEvent_counter in Hq.
  exact (RequestSamples_measure_decreases _ _ Hneed Hq).
Qed.

Definition RequestSamples (this : t) : Outcome (HRESULT * t) :=
  ' this <- RequestSamples_while this ;;
  Ret (QueueRequest this).

Definition Pause (this : t) : HRESULT * t :=
  let hr := ValidateOperation (m_state this) OpPause in
  if SUCCEEDED hr then (hr, set_m_state State_Paused this) else (hr, this).

Definition Restart (this : t) : HRESULT * t :=
  let hr := ValidateOperation (m_state this) OpRestart in
  if SUCCEEDED hr then (hr, set_m_state State_Started this) else (hr, this).

Definition Stop (this : t) : HRESULT * t :=
  let hr := ValidateOperation (m_state this) OpStop in
  if SUCCEEDED hr then (hr, set_m_state State_Stopped this) else (hr, this).

(** The event queue is shut down when the pointer is set, then the
    three references are reset. *)
Definition Shutdown (this : t) : HRESULT * t :=
  let this := set_m_IsShutdown TRUE this in
  let this := set_m_pSink false this in
  let this := set_m_pEventQueue None this in
  let this := set_m_pCurrentType None this in
  (MF_E_SHUTDOWN, this).

Definition Start (start : MFTIME) (this : t) : Outcome (HRESULT * t) :=
  let hr := ValidateOperation (m_state this) OpStart in
  if FAILED hr then Ret (hr, this)
  else
    let this := set_m_state State_Started this in
    let hr := CheckShutdown this in
    ' (_, this) <- (if SUCCEEDED hr
                    then QueueEvent MEStreamSinkStarted GUID_NULL hr this
                    else Ret (hr, this)) ;;
    Ret (QueueRequest this).

Definition Flush (this : t) : HRESULT * t := (S_OK, this).

Definition GetIdentifier (pdwIdentifier : bool) (this : t) : HRESULT := E_FAIL.

Definition GetMediaSink (ppMediaSink : bool) (this : t) : Outcome HRESULT :=
  if negb ppMediaSink then Ret E_POINTER
  else
    let hr := CheckShutdown this in
    if SUCCEEDED hr then
      if m_pSink this then Ret hr else AccessViolation
    else Ret hr.

Definition PlaceMarker (this : t) : HRESULT := E_FAIL.

(** After the buffer is taken, the calls on the DXGI buffer and its
    texture only end the [do] block; the method returns [S_OK] either
    way. *)
Definition ProcessSample (pSample : option IMFSample) (this : t)
  : Outcome (HRESULT * t) :=
  let this := set_m_count (INT_inc (m_count this)) this in
  let this :=
    set_m_cOutstandingSampleRequests
      (DWORD_dec (m_cOutstandingSampleRequests this)) this in
  match pSample with
  | None => AccessViolation
  | Some sample =>
      let hr := GetBufferCount_hr sample in
      if FAILED hr then Ret (hr, this)
      else
        let hr := if cBuffers sample =? 1
                  then GetBufferByIndex_hr sample
                  else ConvertToContiguousBuffer_hr sample in
        if FAILED hr then Ret (hr, this)
        else Ret (S_OK, this)
  end.

Definition GetCurrentMediaType (ppMediaType : bool) (this : t)
  : HRESULT * option IMFMediaType :=
  if negb ppMediaType then (E_POINTER, None)
  else
    let hr := CheckShutdown this in
    let hr :=
      if SUCCEEDED hr then
        match m_pCurrentType this with
        | None => MF_E_NOT_INITIALIZED
        | Some _ => hr
        end
      else hr in
    if SUCCEEDED hr then (hr, m_pCurrentType this) else (hr, None).

Definition GetMajorType (pguidMajorType : bool) (this : t)
  : HRESULT * option GUID :=
  if negb pguidMajorType then (E_POINTER, None)
  else
    let hr := CheckShutdown this in
    if FAILED hr then (hr, None)
    else
      match m_pCurrentType this with
      | None => (MF_E_NOT_INITIALIZED, None)
      | Some pCurrentType =>
          let '(hr, g) := GetGUID MF_MT_MAJOR_TYPE GUID_NULL pCurrentType in
          (hr, if SUCCEEDED hr then Some g else None)
      end.

(** [s_pVideoFormats[dwIndex]] is read below the bound only. *)
Definition GetMediaTypeByIndex (dwIndex : DWORD) (ppType : bool) (this : t)
  : HRESULT * option IMFMediaType :=
  if negb ppType then (E_POINTER, None)
  else
    let hr := CheckShutdown this in
    if FAILED hr then (hr, None)
    else if s_dwNumVideoFormats <=? dwIndex then (MF_E_NO_MORE_TYPES, None)
    else
      let pVideoMediaType := MFCreateMediaType in
      let pVideoMediaType :=
        SetGUID MF_MT_MAJOR_TYPE MFMediaType_Video pVideoMediaType in
      let pVideoMediaType :=
        SetGUID MF_MT_SUBTYPE
          (nth (N.to_nat dwIndex) s_pVideoFormats GUID_NULL) pVideoMediaType in
      (S_OK, Some pVideoMediaType).

Definition GetMediaTypeCount (pdwTypeCount : bool) (this : t)
  : HRESULT * option DWORD :=
  if negb pdwTypeCount then (E_POINTER, None)
  else
    let hr := CheckShutdown this in
    if FAILED hr then (hr, None)
    else (hr, Some s_dwNumVideoFormats).

(** [for (i = 0; i < s_dwNumVideoFormats; i++) if (subType ==
    *s_pVideoFormats[i]) { hr = S_OK; break; }] *)
Fixpoint IsMediaTypeSupported_for_formats (subType : GUID) (formats : list GUID)
    (hr : HRESULT) : HRESULT :=
  match formats with
  | [] => hr
  | format :: rest =>
      if GUID_eqb subType format then S_OK
      else IsMediaTypeSupported_for_formats subType rest hr
  end.

(** [for (i = 0; i < ARRAYSIZE(s_DXGIFormatMapping); i++) if (e.Subtype
    == subType) { m_dxgiFormat = e.DXGIFormat; break; }] *)
Fixpoint IsMediaTypeSupported_for_mapping (subType : GUID)
    (mapping : list FormatEntry) (dxgiFormat : DXGI_FORMAT) : DXGI_FORMAT :=
  match mapping with
  | [] => dxgiFormat
  | e :: rest =>
      if GUID_eqb (Subtype e) subType then DXGIFormat e
      else IsMediaTypeSupported_for_mapping subType rest dxgiFormat
  end.

(** The out parameter [ppMediaType] only receives [NULL]. *)
Definition IsMediaTypeSupported (pMediaType : option IMFMediaType) (this : t)
  : HRESULT * t :=
  let hr := CheckShutdown this in
  if FAILED hr then (hr, this)
  else
    match pMediaType with
    | None => (E_POINTER, this)
    | Some mediaType =>
        let '(hr, subType) := GetGUID MF_MT_SUBTYPE GUID_NULL mediaType in
        if FAILED hr then (hr, this)
        else
          let hr :=
            IsMediaTypeSupported_for_formats subType s_pVideoFormats
              MF_E_INVALIDMEDIATYPE in
          if FAILED hr then (hr, this)
          else
            (hr,
             set_m_dxgiFormat
               (IsMediaTypeSupported_for_mapping subType s_DXGIFormatMapping
                  (m_dxgiFormat this)) this)
    end.

Definition is_one_of (g : GUID) (l : list GUID) : bool :=
  existsb (GUID_eqb g) l.

(** The [if]/[else if] chain of [SetCurrentMediaType] that fills
    [m_imageBytesPP]. *)
Definition SetCurrentMediaType_imageBytesPP (guidSubtype : GUID) : sFraction :=
  if is_one_of guidSubtype
       [MFVideoFormat_NV12; MFVideoFormat_YV12; MFVideoFormat_IYUV;
        MFVideoFormat_YVU9; MFVideoFormat_I420]
  then mkFraction 3 2
  else if is_one_of guidSubtype
       [MFVideoFormat_YUY2; MFVideoFormat_RGB555; MFVideoFormat_RGB565;
        MFVideoFormat_UYVY; MFVideoFormat_YVYU; MEDIASUBTYPE_V216]
  then mkFraction 2 1
  else if GUID_eqb guidSubtype MFVideoFormat_RGB24
  then mkFraction 3 1
  else if GUID_eqb guidSubtype MFVideoFormat_RGB32
  then mkFraction 4 1
  else if GUID_eqb guidSubtype MFVideoFormat_v410
  then mkFraction 5 4
  else mkFraction 1 1.

Definition SetCurrentMediaType (pMediaType : option IMFMediaType) (this : t)
  : HRESULT * t :=
  match pMediaType with
  | None => (E_POINTER, this)
  | Some mediaType =>
      let hr := CheckShutdown this in
      if FAILED hr then (hr, this)
      else
        let hr := ValidateOperation (m_state this) OpSetMediaType in
        if FAILED hr then (hr, this)
        else
          let '(hr, this) := IsMediaTypeSupported pMediaType this in
          if FAILED hr then (hr, this)
          else
            let this := set_m_pCurrentType pMediaType this in
            let '(_, guidSubtype) := GetGUID MF_MT_SUBTYPE GUID_NULL mediaType in
            let this :=
              set_m_imageBytesPP (SetCurrentMediaType_imageBytesPP guidSubtype) this in
            if negb (State_eqb State_Started (m_state this))
               && negb (State_eqb State_Paused (m_state this))
            then (hr, set_m_state State_Ready this)
            else Flush this
  end.
End CustomVideoStreamSink.

(** ** CustomVideoRenderer, the media sink *)

Module CustomVideoRenderer.

(** [m_pStream] is the stream sink the renderer holds, [None] when the
    pointer is null; [m_pClock] tells whether a presentation clock is
    held. *)
Record t : Type := mk
  { m_pStream : option CustomVideoStreamSink.t;
    m_IsShutdown : bool;
    m_pClock : bool }.

Definition STREAM_ID : DWORD := 1.

(** [CreateInstance]: the constructor followed by [Initialize]. *)
Definition CreateInstance : t :=
  {| m_pStream := Some CustomVideoStreamSink.new;
     m_IsShutdown := false;
     m_pClock := false |}.

Definition CheckShutdown (this : t) : HRESULT :=
  if m_IsShutdown this then MF_E_SHUTDOWN else S_OK.

(** The stream handed out through [*ppStreamSink] is the second
    component. *)
Definition GetStreamSinkById (dwStreamSinkIdentifier : DWORD)
    (ppStreamSink : bool) (this : t)
  : Outcome (HRESULT * option CustomVideoStreamSink.t) :=
  if negb ppStreamSink then Ret (E_POINTER, None)
  else if negb (dwStreamSinkIdentifier =? STREAM_ID)
  then Ret (MF_E_INVALIDSTREAMNUMBER, None)
  else
    let hr := CheckShutdown this in
    if SUCCEEDED hr then
      match m_pStream this with
      | Some stream => Ret (E_FAIL, Some stream)
      | None => AccessViolation
      end
    else Ret (E_FAIL, None).

Definition GetStreamSinkByIndex (dwIndex : DWORD) (ppStreamSink : bool) (this : t)
  : Outcome (HRESULT * option CustomVideoStreamSink.t) :=
  if negb ppStreamSink then Ret (E_POINTER, None)
  else if 0 <? dwIndex then Ret (MF_E_INVALIDINDEX, None)
  else
    let hr := CheckShutdown this in
    if SUCCEEDED hr then
      match m_pStream this with
      | Some stream => Ret (hr, Some stream)
      | None => AccessViolation
      end
    else Ret (hr, None).

Definition GetStreamSinkCount (pcStreamSinkCount : bool) (this : t)
  : HRESULT * option DWORD :=
  if negb pcStreamSinkCount then (E_POINTER, None)
  else
    let hr := CheckShutdown this in
    if SUCCEEDED hr then (hr, Some 1) else (hr, None).

Definition AddStreamSink (this : t) : HRESULT := MF_E_STREAMSINKS_FIXED.
Definition RemoveStreamSink (this : t) : HRESULT := MF_E_STREAMSINKS_FIXED.

(** The third component is the stream sink object as the call leaves
    it: [m_pStream->Shutdown()] runs when the pointer is set, then the
    renderer resets its pointers to the clock and to the stream. *)
Definition Shutdown (this : t)
  : HRESULT * t * option CustomVideoStreamSink.t :=
  let hr := MF_E_SHUTDOWN in
  let stream :=
    match m_pStream this with
    | Some stream => Some (snd (CustomVideoStreamSink.Shutdown stream))
    | None => None
    end in
  (hr, {| m_pStream := None; m_IsShutdown := TRUE; m_pClock := false |}, stream).

(** A call on [m_pStream] that stores the stream's new fields. *)
Definition on_stream (f : CustomVideoStreamSink.t -> Outcome (HRESULT * CustomVideoStreamSink.t))
    (this : t) : Outcome (HRESULT * t) :=
  match m_pStream this with
  | None => AccessViolation
  | Some stream =>
      ' (hr, stream) <- f stream ;;
      Ret (hr, {| m_pStream := Some stream;
                  m_IsShutdown := m_IsShutdown this;
                  m_pClock := m_pClock this |})
  end.

Definition OnClockPause (this : t) : Outcome (HRESULT * t) :=
  let hr := CheckShutdown this in
  if SUCCEEDED hr
  then on_stream (fun stream => Ret (CustomVideoStreamSink.Pause stream)) this
  else Ret (hr, this).

Definition OnClockRestart (this : t) : Outcome (HRESULT * t) :=
  let hr := CheckShutdown this in
  if SUCCEEDED hr
  then on_stream (fun stream => Ret (CustomVideoStreamSink.Restart stream)) this
  else Ret (hr, this).

Definition OnClockSetRate (this : t) : HRESULT := S_OK.

Definition OnClockStart (llClockStartOffset : MFTIME) (this : t)
  : Outcome (HRESULT * t) :=
  let hr := CheckShutdown this in
  if FAILED hr then Ret (hr, this)
  else
    ' (hr, this) <- on_stream (fun stream => Ret (CustomVideoStreamSink.Flush stream)) this ;;
    if SUCCEEDED hr
    then on_stream (CustomVideoStreamSink.Start llClockStartOffset) this
    else Ret (hr, this).

Definition OnClockStop (this : t) : Outcome (HRESULT * t) :=
  let hr := CheckShutdown this in
  if SUCCEEDED hr
  then on_stream (fun stream => Ret (CustomVideoStreamSink.Stop stream)) this
  else Ret (hr, this).
End CustomVideoRenderer.

(** ** Executions of the stream sink

    The calls the pipeline, the presentation clock and the work queue
    make on a stream sink, each run as one step. *)

Import CustomVideoStreamSink.

Inductive Call : Type :=
| Call_SetCurrentMediaType (pMediaType : option IMFMediaType)
| Call_Start (start : MFTIME)
| Call_Restart
| Call_Pause
| Call_Stop
| Call_Flush
| Call_ProcessSample (pSample : option IMFSample)
| Call_RequestSamples
| Call_Shutdown.

Definition call (c : Call) (this : t) : Outcome (HRESULT * t) :=
  match c with
  | Call_SetCurrentMediaType pMediaType => Ret (SetCurrentMediaType pMediaType this)
  | Call_Start start => Start start this
  | Call_Restart => Ret (Restart this)
  | Call_Pause => Ret (Pause this)
  | Call_Stop => Ret (Stop this)
  | Call_Flush => Ret (Flush this)
  | Call_ProcessSample pSample => ProcessSample pSample this
  | Call_RequestSamples => RequestSamples this
  | Call_Shutdown => Ret (Shutdown this)
  end.

Fixpoint run (calls : list Call) (this : t) : Outcome t :=
  match calls with
  | [] => Ret this
  | c :: rest => ' (_, this) <- call c this ;; run rest this
  end.

(** Every [ProcessSample] of the execution finds a request outstanding:
    the pipeline delivers a sample in answer to a request-sample event. *)
Fixpoint samples_answer_requests (calls : list Call) (this : t) : bool :=
  match calls with
  | [] => true
  | c :: rest =>
      match c with
      | Call_ProcessSample _ => 0 <? m_cOutstandingSampleRequests this
      | _ => true
      end
      && match call c this with
         | Ret (_, this') => samples_answer_requests rest this'
         | AccessViolation => true
         end
  end.

(** The operation of the matrix a call stands for. *)
Definition operation_of (c : Call) : option StreamOperation :=
  match c with
  | Call_SetCurrentMediaType _ => Some OpSetMediaType
  | Call_Start _ => Some OpStart
  | Call_Restart => Some OpRestart
  | Call_Pause => Some OpPause
  | Call_Stop => Some OpStop
  | Call_ProcessSample _ => Some OpProcessSample
  | Call_Flush | Call_RequestSamples | Call_Shutdown => None
  end.

(** A live sink holds its event queue, as the constructor leaves it. *)
Definition queue_held (this : t) : Prop :=
  m_IsShutdown this = false -> m_pEventQueue this <> None.

(** No [ProcessSample] of the execution is handed a null sample. *)
Definition samples_not_null (calls : list Call) : bool :=
  forallb (fun c => match c with
                    | Call_ProcessSample None => false
                    | _ => true
                    end) calls.

Definition RequestSampleEvent : MFEvent :=
  mkEvent MEStreamSinkRequestSample GUID_NULL S_OK.

Definition StartedEvent : MFEvent :=
  mkEvent MEStreamSinkStarted GUID_NULL S_OK.

(** A media type of major type video with the given subtype. *)
Definition videoType (g : GUID) : IMFMediaType :=
  mkMediaType (Some MFMediaType_Video) (Some g).

(** A sample that holds one buffer and answers every call with [S_OK]. *)
Definition oneBufferSample : IMFSample := mkSample S_OK 1 S_OK S_OK.

(** The sink after [SetCurrentMediaType] with an NV12 type: state
    [State_Ready]. *)
Definition readySink : t :=
  snd (SetCurrentMediaType (Some (videoType MFVideoFormat_NV12)) new).

(** The sink after [Start] on [readySink]: state [State_Started], one
    work item scheduled. *)
Definition startedSink : t :=
  match Start PRESENTATION_CURRENT_POSITION readySink with
  | Ret (_, this) => this
  | AccessViolation => readySink
  end.

(** [startedSink] after [Shutdown]. *)
Definition shutSink : t := snd (Shutdown startedSink).

(** The counter of outstanding requests at the end of an execution. *)
Definition counter_after (calls : list Call) (this : t) : option DWORD :=
  match run calls this with
  | Ret this' => Some (m_cOutstandingSampleRequests this')
  | AccessViolation => None
  end.

(** Negotiate, start, one tick, then four samples for three requests. *)
Definition overdrawn_calls : list Call :=
  [ Call_SetCurrentMediaType (Some (videoType MFVideoFormat_NV12));
    Call_Start PRESENTATION_CURRENT_POSITION;
    Call_RequestSamples;
    Call_ProcessSample (Some oneBufferSample);
    Call_ProcessSample (Some oneBufferSample);
    Call_ProcessSample (Some oneBufferSample);
    Call_ProcessSample (Some oneBufferSample) ].

(** Negotiate, start, and samples that each answer a request. *)
Definition paced_calls : list Call :=
  [ Call_SetCurrentMediaType (Some (videoType MFVideoFormat_NV12));
    Call_Start PRESENTATION_CURRENT_POSITION;
    Call_RequestSamples;
    Call_ProcessSample (Some oneBufferSample);
    Call_ProcessSample (Some oneBufferSample);
    Call_RequestSamples;
    Call_Pause;
    Call_ProcessSample (Some oneBufferSample);
    Call_Start 0%Z;
    Call_RequestSamples;
    Call_ProcessSample (Some oneBufferSample) ].

Definition pacedSink : t :=
  match run paced_calls new with
  | Ret this => this
  | AccessViolation => new
  end.

(** Negotiate, start, one tick, one sample, stop and negotiate again:
    the sink is back in [State_Ready] with two requests outstanding. *)
Definition renegotiated_calls : list Call :=
  [ Call_SetCurrentMediaType (Some (videoType MFVideoFormat_NV12));
    Call_Start PRESENTATION_CURRENT_POSITION;
    Call_RequestSamples;
    Call_ProcessSample (Some oneBufferSample);
    Call_Stop;
    Call_SetCurrentMediaType (Some (videoType MFVideoFormat_NV12)) ].

Definition renegotiatedSink : t :=
  match run renegotiated_calls new with
  | Ret this => this
  | AccessViolation => new
  end.

(** The bytes-per-pixel table of the specification, in its words: the
    family of a subtype gives the ratio.  The family of a subtype is the
    one its sampling and packing put it in: NV12 is 4:2:0 semi-planar,
    IYUV, I420 and YV12 are 4:2:0 planar, 420O is the opaque 4:2:0
    format; YUY2, UYVY, YVYU and V216 are 4:2:2 packed; v410 is the
    10-bit packed format.  RGB555, RGB565 and RGB8 are packed RGB of 16
    and 8 bits, AYUV is 4:4:4, YVU9 keeps one chroma sample for a block
    of 4 by 4 pixels (9 bits a pixel on average) and NV11 is 4:1:1:
    they are of no listed family. *)
Inductive SubtypeFamily : Type :=
| Family_420
| Family_422_packed
| Family_RGB24
| Family_RGB32
| Family_10bit_packed
| Family_unrecognized.

Definition documented_family (g : GUID) : SubtypeFamily :=
  match g with
  | MFVideoFormat_NV12 | MFVideoFormat_IYUV | MFVideoFormat_I420
  | MFVideoFormat_YV12 | MFVideoFormat_420O => Family_420
  | MFVideoFormat_YUY2 | MFVideoFormat_UYVY | MFVideoFormat_YVYU
  | MEDIASUBTYPE_V216 => Family_422_packed
  | MFVideoFormat_RGB24 => Family_RGB24
  | MFVideoFormat_RGB32 => Family_RGB32
  | MFVideoFormat_v410 => Family_10bit_packed
  | _ => Family_unrecognized
  end.

Definition documented_ratio (family : SubtypeFamily) : sFraction :=
  match family with
  | Family_420 => mkFraction 3 2
  | Family_422_packed => mkFraction 2 1
  | Family_RGB24 => mkFraction 3 1
  | Family_RGB32 => mkFraction 4 1
  | Family_10bit_packed => mkFraction 5 4
  | Family_unrecognized => mkFraction 1 1
  end.

(** The sink with the new type in place, before the state is settled:
    the display format [IsMediaTypeSupported] resolved, the current type
    and the bytes per pixel. *)
Definition with_media_type (mediaType : IMFMediaType) (g : GUID) (this : t) : t :=
  set_m_imageBytesPP (SetCurrentMediaType_imageBytesPP g)
    (set_m_pCurrentType (Some mediaType)
       (set_m_dxgiFormat
          (IsMediaTypeSupported_for_mapping g s_DXGIFormatMapping (m_dxgiFormat this))
          this)).

(** ** Executions of the media sink

    The notifications of the presentation clock and Shutdown, each run
    as one step on the renderer. *)

Inductive ClockNotification : Type :=
| Clock_Start (llClockStartOffset : MFTIME)
| Clock_Pause
| Clock_Stop
| Clock_Restart.

Inductive SinkCall : Type :=
| Sink_Notify (n : ClockNotification)
| Sink_Shutdown.

Definition notify (n : ClockNotification) (sink : CustomVideoRenderer.t)
  : Outcome (HRESULT * CustomVideoRenderer.t) :=
  match n with
  | Clock_Start llClockStartOffset =>
      CustomVideoRenderer.OnClockStart llClockStartOffset sink
  | Clock_Pause => CustomVideoRenderer.OnClockPause sink
  | Clock_Stop => CustomVideoRenderer.OnClockStop sink
  | Clock_Restart => CustomVideoRenderer.OnClockRestart sink
  end.

Definition sink_call (c : SinkCall) (sink : CustomVideoRenderer.t)
  : Outcome (HRESULT * CustomVideoRenderer.t) :=
  match c with
  | Sink_Notify n => notify n sink
  | Sink_Shutdown => Ret (fst (CustomVideoRenderer.Shutdown sink))
  end.

Fixpoint sink_run (calls : list SinkCall) (sink : CustomVideoRenderer.t)
  : Outcome CustomVideoRenderer.t :=
  match calls with
  | [] => Ret sink
  | c :: rest => ' (_, sink) <- sink_call c sink ;; sink_run rest sink
  end.

(** The call on the stream sink a notification is forwarded as. *)
Definition forwarded_as (n : ClockNotification) : Call :=
  match n with
  | Clock_Start llClockStartOffset => Call_Start llClockStartOffset
  | Clock_Pause => Call_Pause
  | Clock_Stop => Call_Stop
  | Clock_Restart => Call_Restart
  end.

(** The renderer with another stream sink behind [m_pStream]. *)
Definition with_stream (stream : t) (sink : CustomVideoRenderer.t)
  : CustomVideoRenderer.t :=
  {| CustomVideoRenderer.m_pStream := Some stream;
     CustomVideoRenderer.m_IsShutdown := CustomVideoRenderer.m_IsShutdown sink;
     CustomVideoRenderer.m_pClock := CustomVideoRenderer.m_pClock sink |}.

(** A live renderer holds its stream sink, and that stream sink holds
    its event queue while it is live. *)
Definition holds_stream (sink : CustomVideoRenderer.t) : Prop :=
  CustomVideoRenderer.m_IsShutdown sink = false ->
  exists stream,
    CustomVideoRenderer.m_pStream sink = Some stream /\ queue_held stream.

(** ** Reference counts

    [AddRef], [Release] and [QueryInterface] of the two classes, the
    construction in [CreateInstance] and [Initialize], and what the two
    [Shutdown] methods release.  The renderer holds its stream sink in
    [m_pStream]; the stream sink holds the renderer in [m_pSink], taken
    by its constructor.  A [ComPtr] adds a reference when it is
    initialised from a pointer and releases it on [Reset] and on
    destruction; [delete this] runs the destructor, which releases the
    members.  A call on a deleted object is a fault. *)

Module Lifetime.

Inductive Object : Type :=
| TheRenderer
| TheStream.

Inductive IID : Type :=
| IID_IUnknown
| IID_IMFMediaSink
| IID_IMFClockStateSink
| IID_IMFStreamSink
| IID_IMFMediaEventGenerator
| IID_IMFMediaTypeHandler
| IID_IMFGetService
| IID_IMFAsyncCallback
| IID_other (data1 : N).

(** [m_nRefCount] of each object, whether it was deleted (or not yet
    created), and whether its pointer to the other object is set:
    [m_pStream] of the renderer, [m_pSink] of the stream sink. *)
Record objects : Type := mkObjects
  { renderer_m_nRefCount : DWORD;
    renderer_deleted : bool;
    renderer_m_pStream : bool;
    stream_m_nRefCount : DWORD;
    stream_deleted : bool;
    stream_m_pSink : bool }.

Definition other (o : Object) : Object :=
  match o with TheRenderer => TheStream | TheStream => TheRenderer end.

Definition m_nRefCount (o : Object) (h : objects) : DWORD :=
  match o with
  | TheRenderer => renderer_m_nRefCount h
  | TheStream => stream_m_nRefCount h
  end.

Definition deleted (o : Object) (h : objects) : bool :=
  match o with
  | TheRenderer => renderer_deleted h
  | TheStream => stream_deleted h
  end.

(** The [ComPtr] member of [o] that points to the other object. *)
Definition pointer (o : Object) (h : objects) : bool :=
  match o with
  | TheRenderer => renderer_m_pStream h
  | TheStream => stream_m_pSink h
  end.

Definition set_m_nRefCount (o : Object) (n : DWORD) (h : objects) : objects :=
  match o with
  | TheRenderer =>
      mkObjects n (renderer_deleted h) (renderer_m_pStream h)
        (stream_m_nRefCount h) (stream_deleted h) (stream_m_pSink h)
  | TheStream =>
      mkObjects (renderer_m_nRefCount h) (renderer_deleted h) (renderer_m_pStream h)
        n (stream_deleted h) (stream_m_pSink h)
  end.

Definition set_deleted (o : Object) (v : bool) (h : objects) : objects :=
  match o with
  | TheRenderer =>
      mkObjects (renderer_m_nRefCount h) v (renderer_m_pStream h)
        (stream_m_nRefCount h) (stream_deleted h) (stream_m_pSink h)
  | TheStream =>
      mkObjects (renderer_m_nRefCount h) (renderer_deleted h) (renderer_m_pStream h)
        (stream_m_nRefCount h) v (stream_m_pSink h)
  end.

Definition set_pointer (o : Object) (v : bool) (h : objects) : objects :=
  match o with
  | TheRenderer =>
      mkObjects (renderer_m_nRefCount h) (renderer_deleted h) v
        (stream_m_nRefCount h) (stream_deleted h) (stream_m_pSink h)
  | TheStream =>
      mkObjects (renderer_m_nRefCount h) (renderer_deleted h) (renderer_m_pStream h)
        (stream_m_nRefCount h) (stream_deleted h) v
  end.

(** [return InterlockedIncrement(&m_nRefCount);] *)
Definition AddRef (o : Object) (h : objects) : Outcome (DWORD * objects) :=
  if deleted o h then AccessViolation
  else
    let uCount := DWORD_inc (m_nRefCount o h) in
    Ret (uCount, set_m_nRefCount o uCount h).

(** [uCount = InterlockedDecrement(&m_nRefCount); if (uCount == 0) delete
    this;].  The destructor releases the pointer to the other object
    when it is set; [depth] bounds the nesting of destructors, and two
    levels are all that two objects need ([Release_at_depth]). *)
Fixpoint Release_at (depth : nat) (o : Object) (h : objects)
  : Outcome (DWORD * objects) :=
  if deleted o h then AccessViolation
  else
    let uCount := DWORD_dec (m_nRefCount o h) in
    let h := set_m_nRefCount o uCount h in
    if uCount =? 0 then
      let h := set_deleted o true h in
      if pointer o h then
        match depth with
        | O => AccessViolation
        | S depth =>
            ' (_, h) <- Release_at depth (other o) (set_pointer o false h) ;;
            Ret (uCount, h)
        end
      else Ret (uCount, h)
    else Ret (uCount, h).

Definition Release (o : Object) (h : objects) : Outcome (DWORD * objects) :=
  Release_at 2 o h.

(** The interfaces each [QueryInterface] answers. *)
Definition answers (o : Object) (iid : IID) : bool :=
  match o, iid with
  | TheRenderer, (IID_IUnknown | IID_IMFMediaSink) => true
  | TheStream, (IID_IUnknown | IID_IMFStreamSink | IID_IMFMediaEventGenerator
                | IID_IMFMediaTypeHandler | IID_IMFGetService) => true
  | _, _ => false
  end.

Definition QueryInterface (o : Object) (iid : IID) (ppv : bool) (h : objects)
  : Outcome (HRESULT * objects) :=
  if deleted o h then AccessViolation
  else if negb ppv then Ret (E_POINTER, h)
  else if answers o iid then
    ' (_, h) <- AddRef o h ;; Ret (S_OK, h)
  else Ret (E_NOINTERFACE, h).

(** [ComPtr::Reset] on the pointer of [o] to the other object. *)
Definition Reset (o : Object) (h : objects) : Outcome objects :=
  if deleted o h then AccessViolation
  else if pointer o h then
    ' (_, h) <- Release (other o) (set_pointer o false h) ;; Ret h
  else Ret h.

Definition no_objects : objects := mkObjects 0 true false 0 true false.

(** [new CustomVideoRenderer()] *)
Definition new_CustomVideoRenderer (h : objects) : objects :=
  set_pointer TheRenderer false
    (set_deleted TheRenderer false (set_m_nRefCount TheRenderer 1 h)).

(** [new CustomVideoStreamSink(STREAM_ID, m_csStreamSinkAndScheduler,
    this)]: [m_nRefCount = 1] and [m_pSink(parent)]. *)
Definition new_CustomVideoStreamSink (h : objects) : Outcome objects :=
  let h := set_deleted TheStream false (set_m_nRefCount TheStream 1 h) in
  ' (_, h) <- AddRef TheRenderer h ;;
  Ret (set_pointer TheStream true h).

Definition Initialize (h : objects) : Outcome (HRESULT * objects) :=
  ' h <- new_CustomVideoStreamSink h ;;
  ' (hr, h) <- QueryInterface TheStream IID_IMFStreamSink true h ;;
  let h := if SUCCEEDED hr then set_pointer TheRenderer true h else h in
  ' (_, h) <- Release TheStream h ;;
  Ret (hr, h).

Definition CreateInstance (iid : IID) (ppSink : bool) : Outcome (HRESULT * objects) :=
  if negb ppSink then Ret (E_POINTER, no_objects)
  else
    let h := new_CustomVideoRenderer no_objects in
    ' (hr, h) <- Initialize h ;;
    ' (hr, h) <- (if SUCCEEDED hr
                  then QueryInterface TheRenderer iid true h
                  else Ret (hr, h)) ;;
    ' (_, h) <- Release TheRenderer h ;;
    Ret (hr, h).

(** [CustomVideoStreamSink::Shutdown]: [m_pSink.Reset()] *)
Definition Stream_Shutdown (h : objects) : Outcome objects :=
  Reset TheStream h.

(** [CustomVideoRenderer::Shutdown]: [m_pStream->Shutdown()] when the
    pointer is set, then [m_pStream.Reset()]. *)
Definition Shutdown (h : objects) : Outcome objects :=
  if deleted TheRenderer h then AccessViolation
  else
    ' h <- (if pointer TheRenderer h then Stream_Shutdown h else Ret h) ;;
    Reset TheRenderer h.

(** [n] calls of [Release] on the renderer. *)
Fixpoint Release_times (n : nat) (h : objects) : Outcome objects :=
  match n with
  | O => Ret h
  | S n => ' (_, h) <- Release TheRenderer h ;; Release_times n h
  end.

(** [n] calls of [AddRef] on the renderer. *)
Fixpoint AddRef_times (n : nat) (h : objects) : Outcome objects :=
  match n with
  | O => Ret h
  | S n => ' (_, h) <- AddRef TheRenderer h ;; AddRef_times n h
  end.

(** The renderer with [r] references and its stream sink, each holding
    the other. *)
Definition cycle (r : DWORD) : objects := mkObjects r false true 1 false true.

(** The renderer with [r] references after Shutdown: the stream sink is
    deleted. *)
Definition shut_down (r : DWORD) : objects := mkObjects r false false 0 true false.

End Lifetime.

(** ** Predicates on executions *)

(** On a live sink the state is [State_TypeNotSet] exactly while no
    type is held. *)
Definition state_tells_type (this : t) : Prop :=
  m_IsShutdown this = false ->
  (m_state this = State_TypeNotSet <-> m_pCurrentType this = None).

(** The operation a call is validated as and the state it sets when it
    is accepted. *)
Definition transition_of (c : Call) : option (StreamOperation * State) :=
  match c with
  | Call_SetCurrentMediaType (Some _) => Some (OpSetMediaType, State_Ready)
  | Call_Start _ => Some (OpStart, State_Started)
  | Call_Restart => Some (OpRestart, State_Started)
  | Call_Pause => Some (OpPause, State_Paused)
  | Call_Stop => Some (OpStop, State_Stopped)
  | _ => None
  end.

(** What no call undoes once the sink is shut down. *)
Definition stays_shut (this0 this : t) : Prop :=
  m_IsShutdown this = true
  /\ m_pEventQueue this = None
  /\ m_pCurrentType this = None
  /\ m_pSink this = false
  /\ m_imageBytesPP this = m_imageBytesPP this0
  /\ m_dxgiFormat this = m_dxgiFormat this0.

Definition is_tick (c : Call) : bool :=
  match c with Call_RequestSamples => true | _ => false end.

Definition is_start (c : Call) : bool :=
  match c with Call_Start _ => true | _ => false end.

Definition is_sample (c : Call) : bool :=
  match c with Call_ProcessSample _ => true | _ => false end.

(** The Starts of an execution that the matrix accepts, each in the
    state the calls before it have left. *)
Fixpoint accepted_starts (calls : list Call) (this : t) : nat :=
  match calls with
  | [] => 0
  | c :: rest =>
      (if is_start c && ValidStateMatrix_at (m_state this) OpStart then 1 else 0)
      + match call c this with
        | Ret (_, this') => accepted_starts rest this'
        | AccessViolation => 0
        end
  end.

(** An execution with the result of each call, in the order of the
    calls. *)
Fixpoint run_results (calls : list Call) (this : t) : Outcome (list HRESULT * t) :=
  match calls with
  | [] => Ret ([], this)
  | c :: rest =>
      ' (hr, this) <- call c this ;;
      ' (hrs, this) <- run_results rest this ;;
      Ret (hr :: hrs, this)
  end.

Fixpoint sink_run_results (calls : list SinkCall) (sink : CustomVideoRenderer.t)
  : Outcome (list HRESULT * CustomVideoRenderer.t) :=
  match calls with
  | [] => Ret ([], sink)
  | c :: rest =>
      ' (hr, sink) <- sink_call c sink ;;
      ' (hrs, sink) <- sink_run_results rest sink ;;
      Ret (hr :: hrs, sink)
  end.

Definition is_request (e : MFEvent) : bool :=
  match met e with MEStreamSinkRequestSample => true | _ => false end.

Definition count_requests (q : list MFEvent) : nat := length (filter is_request q).

(** The counter is in the range of a [DWORD] and, while the queue is
    held, equals the requests queued less the samples counted, up to a
    multiple of [2^32]. *)
Definition requests_balance (this : t) : Prop :=
  m_cOutstandingSampleRequests this < DWORD_modulus
  /\ forall q, m_pEventQueue this = Some q ->
       exists k : Z,
         Z.of_N (m_cOutstandingSampleRequests this)
         = (Z.of_nat (count_requests q) - m_count this + k * 2 ^ 32)%Z.

(** * Properties *)

Ltac unfold_setters :=
  unfold set_m_pSink, set_m_IsShutdown, set_m_pCurrentType, set_m_pEventQueue,
    set_m_state, set_m_imageBytesPP, set_m_dxgiFormat,
    set_m_cOutstandingSampleRequests, set_m_count, set_scheduledWorkItems in *.

(** ** The matrix *)

(** The matrix has one row per state and one entry per operation, so a
    lookup never falls outside of it. *)
Lemma ValidStateMatrix_shape :
  length ValidStateMatrix = 5%nat
  /\ Forall (fun row => length row = 7%nat) ValidStateMatrix.
Proof. split; [reflexivity|]. repeat constructor. Qed.

(** Restart is allowed from Ready and Paused only, ProcessSample from
    Started and Paused only, SetMediaType everywhere. *)
Lemma ValidStateMatrix_rows (state : State) :
  (ValidStateMatrix_at state OpRestart = TRUE
   <-> state = State_Ready \/ state = State_Paused)
  /\ (ValidStateMatrix_at state OpProcessSample = TRUE
      <-> state = State_Started \/ state = State_Paused)
  /\ ValidStateMatrix_at state OpSetMediaType = TRUE.
Proof.
  destruct state; cbn; repeat split; intros; try tauto; try discriminate;
    match goal with H : _ \/ _ |- _ => destruct H; discriminate end.
Qed.

(** ** The request loop *)

Lemma RequestSamples_while_unfold (this : t) :
  RequestSamples_while this =
  if NeedMoreSamples this then
    if FAILED (CheckShutdown this) then Ret this
    else
      ' (_, this') <- QueueEvent MEStreamSinkRequestSample GUID_NULL S_OK
                        (set_m_cOutstandingSampleRequests
                           (DWORD_inc (m_cOutstandingSampleRequests this)) this) ;;
      RequestSamples_while this'
  else Ret this.
Proof.
  funelim (RequestSamples_while this).
  - rewrite e. reflexivity.
  - rewrite Hneed, e. reflexivity.
  - rewrite Hneed, e, Hq. reflexivity.
  - rewrite Hneed, e, e0. reflexivity.
Qed.

Lemma DWORD_inc_small (n : DWORD) :
  n < SAMPLE_QUEUE_HIWATER_THRESHOLD -> DWORD_inc n = n + 1.
Proof.
  unfold SAMPLE_QUEUE_HIWATER_THRESHOLD, DWORD_inc, DWORD_modulus. intros H.
  apply N.mod_small. apply N.lt_trans with 4; [lia | reflexivity].
Qed.

Lemma DWORD_dec_small (n : DWORD) :
  0 < n -> n <= SAMPLE_QUEUE_HIWATER_THRESHOLD -> DWORD_dec n = n - 1.
Proof.
  unfold SAMPLE_QUEUE_HIWATER_THRESHOLD, DWORD_dec, DWORD_modulus. intros H0 H3.
  replace (n + (2 ^ 32 - 1)) with ((n - 1) + 1 * 2 ^ 32).
  - rewrite N.Div0.mod_add. apply N.mod_small.
    apply N.lt_trans with 4; [lia | reflexivity].
  - change (2 ^ 32) with 4294967296. lia.
Qed.

(** Once the sink is shut down the loop leaves at its first test or at
    its first [break], with the sink as it found it. *)
Lemma RequestSamples_while_shutdown (this : t) :
  m_IsShutdown this = true -> RequestSamples_while this = Ret this.
Proof.
  intros H. rewrite RequestSamples_while_unfold.
  unfold CheckShutdown. rewrite H. cbn.
  destruct (NeedMoreSamples this); reflexivity.
Qed.

(** On a live sink with [n] requests missing to the threshold the loop
    issues exactly [n] requests. *)
Lemma RequestSamples_while_live (n : nat) : forall (this : t) (q : list MFEvent),
  m_IsShutdown this = false ->
  m_pEventQueue this = Some q ->
  m_cOutstandingSampleRequests this + N.of_nat n = SAMPLE_QUEUE_HIWATER_THRESHOLD ->
  RequestSamples_while this =
  Ret (set_m_cOutstandingSampleRequests SAMPLE_QUEUE_HIWATER_THRESHOLD
         (set_m_pEventQueue (Some (q ++ repeat RequestSampleEvent n)) this)).
Proof.
  induction n as [|n IH]; intros this q Hlive Hq Hc;
    rewrite RequestSamples_while_unfold; unfold NeedMoreSamples.
  - replace (m_cOutstandingSampleRequests this <? SAMPLE_QUEUE_HIWATER_THRESHOLD)
      with false by (symmetry; apply N.ltb_ge; lia).
    destruct this; cbn in *; subst. rewrite app_nil_r.
    unfold_setters. cbn. do 2 f_equal. lia.
  - assert (Hlt : m_cOutstandingSampleRequests this < SAMPLE_QUEUE_HIWATER_THRESHOLD) by lia.
    replace (m_cOutstandingSampleRequests this <? SAMPLE_QUEUE_HIWATER_THRESHOLD)
      with true by (symmetry; apply N.ltb_lt; exact Hlt).
    rewrite (DWORD_inc_small _ Hlt).
    unfold CheckShutdown, QueueEvent, CheckShutdown. cbn.
    rewrite Hlive, Hq. cbn.
    rewrite (IH _ (q ++ [RequestSampleEvent])); cbn; try reflexivity; try assumption.
    + rewrite <- app_assoc. reflexivity.
    + lia.
Qed.

(** The loop never moves the counter above the threshold. *)
Lemma RequestSamples_while_bound (n : nat) : forall (this this' : t),
  m_cOutstandingSampleRequests this + N.of_nat n = SAMPLE_QUEUE_HIWATER_THRESHOLD ->
  RequestSamples_while this = Ret this' ->
  m_cOutstandingSampleRequests this' <= SAMPLE_QUEUE_HIWATER_THRESHOLD.
Proof.
  induction n as [|n IH]; intros this this' Hc;
    rewrite RequestSamples_while_unfold; unfold NeedMoreSamples.
  - replace (m_cOutstandingSampleRequests this <? SAMPLE_QUEUE_HIWATER_THRESHOLD)
      with false by (symmetry; apply N.ltb_ge; lia).
    intros [= <-]. lia.
  - assert (Hlt : m_cOutstandingSampleRequests this < SAMPLE_QUEUE_HIWATER_THRESHOLD) by lia.
    replace (m_cOutstandingSampleRequests this <? SAMPLE_QUEUE_HIWATER_THRESHOLD)
      with true by (symmetry; apply N.ltb_lt; exact Hlt).
    destruct (FAILED (CheckShutdown this)).
    + intros [= <-]. lia.
    + rewrite (DWORD_inc_small _ Hlt).
      destruct (QueueEvent _ _ _ _) as [[hr this1]|] eqn:HQ; cbn; [|discriminate].
      apply QueueEvent_counter in HQ. cbn in HQ.
      apply IH. rewrite HQ. lia.
Qed.

(** A tick on a live sink: the requests missing to the threshold are
    queued, and the next work item is scheduled. *)
Lemma RequestSamples_live (this : t) (q : list MFEvent) :
  m_IsShutdown this = false ->
  m_pEventQueue this = Some q ->
  RequestSamples this
  = Ret (S_OK,
         set_scheduledWorkItems (S (scheduledWorkItems this))
           (set_m_cOutstandingSampleRequests
              (N.max (m_cOutstandingSampleRequests this) SAMPLE_QUEUE_HIWATER_THRESHOLD)
              (set_m_pEventQueue
                 (Some (q ++ repeat RequestSampleEvent
                               (N.to_nat (SAMPLE_QUEUE_HIWATER_THRESHOLD
                                          - m_cOutstandingSampleRequests this))))
                 this))).
Proof.
  intros Hlive Hq. unfold RequestSamples.
  destruct (m_cOutstandingSampleRequests this <? SAMPLE_QUEUE_HIWATER_THRESHOLD) eqn:Hlt.
  - apply N.ltb_lt in Hlt.
    rewrite (RequestSamples_while_live
               (N.to_nat (SAMPLE_QUEUE_HIWATER_THRESHOLD - m_cOutstandingSampleRequests this))
               this q Hlive Hq) by lia.
    cbn. rewrite N.max_r by lia. reflexivity.
  - assert (Hn : N.to_nat (SAMPLE_QUEUE_HIWATER_THRESHOLD
                           - m_cOutstandingSampleRequests this) = 0%nat)
      by (apply N.ltb_ge in Hlt; lia).
    rewrite Hn, RequestSamples_while_unfold. unfold NeedMoreSamples.
    rewrite Hlt. apply N.ltb_ge in Hlt.
    rewrite N.max_l by exact Hlt.
    destruct this; cbn in *; subst. rewrite app_nil_r. reflexivity.
Qed.

(** ** What each call does to the counter of outstanding requests *)

Ltac case_all :=
  repeat match goal with
    | |- context [match ?x with _ => _ end] => destruct x eqn:?; cbn
    end.

(** From [Ret r = Ret (hr, this')], replace [this'] by [snd r]. *)
Ltac ret_snd H :=
  first [ injection H as _ H; rewrite <- H
        | injection H as H; apply (f_equal snd) in H; cbn [snd] in H; rewrite <- H ].

Lemma IsMediaTypeSupported_counter p this :
  m_cOutstandingSampleRequests (snd (IsMediaTypeSupported p this))
  = m_cOutstandingSampleRequests this.
Proof. unfold IsMediaTypeSupported. case_all; reflexivity. Qed.

Lemma SetCurrentMediaType_counter p this :
  m_cOutstandingSampleRequests (snd (SetCurrentMediaType p this))
  = m_cOutstandingSampleRequests this.
Proof.
  unfold SetCurrentMediaType. destruct p as [mediaType|]; [|reflexivity].
  destruct (FAILED (CheckShutdown this)); [reflexivity|].
  destruct (FAILED (ValidateOperation _ _)); [reflexivity|].
  pose proof (IsMediaTypeSupported_counter (Some mediaType) this) as H.
  destruct (IsMediaTypeSupported (Some mediaType) this) as [hr this1].
  cbn in H. rewrite <- H.
  destruct (FAILED hr); [reflexivity|].
  destruct (GetGUID _ _ _). case_all; reflexivity.
Qed.

Lemma Start_counter start this hr this' :
  Start start this = Ret (hr, this') ->
  m_cOutstandingSampleRequests this' = m_cOutstandingSampleRequests this.
Proof.
  unfold Start. destruct (FAILED (ValidateOperation _ _)).
  - intros [= _ <-]. reflexivity.
  - destruct (SUCCEEDED (CheckShutdown _)).
    + destruct (QueueEvent _ _ _ _) as [[hr1 this1]|] eqn:HQ; cbn; [|discriminate].
      apply QueueEvent_counter in HQ. intros [= _ <-]. cbn in *. exact HQ.
    + cbn. intros [= _ <-]. reflexivity.
Qed.

Lemma ProcessSample_counter pSample this hr this' :
  ProcessSample pSample this = Ret (hr, this') ->
  m_cOutstandingSampleRequests this'
  = DWORD_dec (m_cOutstandingSampleRequests this).
Proof.
  unfold ProcessSample. destruct pSample as [sample|]; [|discriminate].
  case_all; intros [= _ <-]; reflexivity.
Qed.

Lemma RequestSamples_counter this hr this' :
  m_cOutstandingSampleRequests this <= SAMPLE_QUEUE_HIWATER_THRESHOLD ->
  RequestSamples this = Ret (hr, this') ->
  m_cOutstandingSampleRequests this' <= SAMPLE_QUEUE_HIWATER_THRESHOLD.
Proof.
  intros Hc. unfold RequestSamples.
  destruct (RequestSamples_while this) as [this1|] eqn:HW; cbn; [|discriminate].
  intros [= _ <-]. cbn.
  apply (RequestSamples_while_bound
           (N.to_nat (SAMPLE_QUEUE_HIWATER_THRESHOLD - m_cOutstandingSampleRequests this))
           this this1); [lia | exact HW].
Qed.

Lemma call_counter_bound c this hr this' :
  m_cOutstandingSampleRequests this <= SAMPLE_QUEUE_HIWATER_THRESHOLD ->
  samples_answer_requests [c] this = true ->
  call c this = Ret (hr, this') ->
  m_cOutstandingSampleRequests this' <= SAMPLE_QUEUE_HIWATER_THRESHOLD.
Proof.
  intros Hc Hguard Hcall. destruct c; cbn [call] in Hcall.
  - ret_snd Hcall. rewrite SetCurrentMediaType_counter. exact Hc.
  - rewrite (Start_counter _ _ _ _ Hcall). exact Hc.
  - ret_snd Hcall. unfold Restart. case_all; exact Hc.
  - ret_snd Hcall. unfold Pause. case_all; exact Hc.
  - ret_snd Hcall. unfold Stop. case_all; exact Hc.
  - ret_snd Hcall. exact Hc.
  - cbn in Hguard. apply andb_prop in Hguard as [Hpos _]. apply N.ltb_lt in Hpos.
    rewrite (ProcessSample_counter _ _ _ _ Hcall).
    rewrite DWORD_dec_small by assumption. lia.
  - exact (RequestSamples_counter _ _ _ Hc Hcall).
  - ret_snd Hcall. exact Hc.
Qed.

Lemma run_counter_bound calls : forall this this',
  m_cOutstandingSampleRequests this <= SAMPLE_QUEUE_HIWATER_THRESHOLD ->
  samples_answer_requests calls this = true ->
  run calls this = Ret this' ->
  m_cOutstandingSampleRequests this' <= SAMPLE_QUEUE_HIWATER_THRESHOLD.
Proof.
  induction calls as [|c rest IH]; intros this this' Hc Hguard Hrun.
  - injection Hrun as <-. exact Hc.
  - cbn [run] in Hrun. cbn [samples_answer_requests] in Hguard.
    apply andb_prop in Hguard as [Hhead Hrest].
    destruct (call c this) as [[hr this1]|] eqn:Hcall; [|discriminate].
    cbn in Hrun. apply (IH this1 this'); [|exact Hrest|exact Hrun].
    apply (call_counter_bound c this hr this1); [exact Hc| |exact Hcall].
    cbn [samples_answer_requests]. rewrite Hhead, Hcall. reflexivity.
Qed.

(** ** Executions return

    From a sink that holds its queue while live, every call that is not
    handed a null sample returns, and the sink still holds its queue. *)

Lemma IsMediaTypeSupported_queue p this :
  m_IsShutdown (snd (IsMediaTypeSupported p this)) = m_IsShutdown this
  /\ m_pEventQueue (snd (IsMediaTypeSupported p this)) = m_pEventQueue this.
Proof. unfold IsMediaTypeSupported. case_all; split; reflexivity. Qed.

Lemma SetCurrentMediaType_queue p this :
  m_IsShutdown (snd (SetCurrentMediaType p this)) = m_IsShutdown this
  /\ m_pEventQueue (snd (SetCurrentMediaType p this)) = m_pEventQueue this.
Proof.
  unfold SetCurrentMediaType. destruct p as [mediaType|]; [|split; reflexivity].
  destruct (FAILED (CheckShutdown this)); [split; reflexivity|].
  destruct (FAILED (ValidateOperation _ _)); [split; reflexivity|].
  destruct (IsMediaTypeSupported_queue (Some mediaType) this) as [Hs Hq].
  destruct (IsMediaTypeSupported (Some mediaType) this) as [hr this1].
  cbn in Hs, Hq. rewrite <- Hs, <- Hq.
  destruct (FAILED hr); [split; reflexivity|].
  destruct (GetGUID _ _ _). case_all; split; reflexivity.
Qed.

Lemma RequestSamples_while_returns (this : t) :
  queue_held this ->
  exists this', RequestSamples_while this = Ret this' /\ queue_held this'.
Proof.
  intros Hheld.
  destruct (m_IsShutdown this) eqn:Hshut.
  { exists this. split; [apply RequestSamples_while_shutdown; exact Hshut|exact Hheld]. }
  destruct (NeedMoreSamples this) eqn:Hneed.
  - destruct (m_pEventQueue this) as [q|] eqn:Hq; [|exfalso; exact (Hheld Hshut Hq)].
    unfold NeedMoreSamples in Hneed. apply N.ltb_lt in Hneed.
    eexists. split.
    + apply (RequestSamples_while_live
               (N.to_nat (SAMPLE_QUEUE_HIWATER_THRESHOLD - m_cOutstandingSampleRequests this))
               this q Hshut Hq).
      lia.
    + intros _. discriminate.
  - exists this. split; [|exact Hheld].
    rewrite RequestSamples_while_unfold, Hneed. reflexivity.
Qed.

Lemma call_returns (c : Call) (this : t) :
  queue_held this ->
  samples_not_null [c] = true ->
  exists hr this', call c this = Ret (hr, this') /\ queue_held this'.
Proof.
  intros Hheld Hnotnull. unfold queue_held in *. destruct c; cbn [call].
  - destruct (SetCurrentMediaType_queue pMediaType this) as [Hs Hq].
    destruct (SetCurrentMediaType pMediaType this) as [hr this1]. cbn in Hs, Hq.
    exists hr, this1. split; [reflexivity|]. rewrite Hs, Hq. exact Hheld.
  - unfold Start, ValidateOperation.
    destruct (ValidStateMatrix_at (m_state this) OpStart); cbn.
    + unfold CheckShutdown, QueueEvent, CheckShutdown. cbn.
      destruct (m_IsShutdown this) eqn:Hshut; cbn.
      * eexists _, _. split; [reflexivity|]. cbn. congruence.
      * destruct (m_pEventQueue this) as [q|] eqn:Hq;
          [|exfalso; exact (Hheld eq_refl eq_refl)].
        cbn. eexists _, _. split; [reflexivity|]. cbn. discriminate.
    + eexists _, _. split; [reflexivity|exact Hheld].
  - unfold Restart. case_all; eexists _, _; (split; [reflexivity|exact Hheld]).
  - unfold Pause. case_all; eexists _, _; (split; [reflexivity|exact Hheld]).
  - unfold Stop. case_all; eexists _, _; (split; [reflexivity|exact Hheld]).
  - eexists _, _. split; [reflexivity|exact Hheld].
  - destruct pSample as [sample|]; [|discriminate Hnotnull].
    unfold ProcessSample. case_all; eexists _, _; (split; [reflexivity|exact Hheld]).
  - unfold RequestSamples.
    destruct (RequestSamples_while_returns this Hheld) as (this1 & -> & Hheld1).
    cbn. eexists _, _. split; [reflexivity|exact Hheld1].
  - eexists _, _. split; [reflexivity|]. cbn. discriminate.
Qed.

Lemma run_returns (calls : list Call) : forall this : t,
  queue_held this ->
  samples_not_null calls = true ->
  exists this', run calls this = Ret this' /\ queue_held this'.
Proof.
  induction calls as [|c rest IH]; intros this Hheld Hnotnull.
  - exists this. split; [reflexivity|exact Hheld].
  - cbn [samples_not_null forallb] in Hnotnull.
    apply andb_prop in Hnotnull as [Hc Hrest].
    destruct (call_returns c this Hheld) as (hr & this1 & Hcall & Hheld1).
    { cbn. rewrite Hc. reflexivity. }
    cbn [run]. rewrite Hcall. cbn. exact (IH this1 Hheld1 Hrest).
Qed.

(** ** C2: the bound on outstanding requests *)

(** C2, as stated, fails: the counter is decremented by every
    [ProcessSample], also when no request is outstanding.  After one
    tick has issued three requests, a fourth sample wraps the counter
    to [2^32 - 1], above the threshold. *)
Lemma C2_counter_wraps_above_threshold :
  counter_after overdrawn_calls new = Some 4294967295
  /\ ~ 4294967295 <= SAMPLE_QUEUE_HIWATER_THRESHOLD.
Proof.
  split.
  - vm_compute. reflexivity.
  - unfold SAMPLE_QUEUE_HIWATER_THRESHOLD. lia.
Qed.

(** C2, amended: in every execution from a new sink (any interleaving of
    media type changes, Start, Restart, Pause, Stop, Flush, Shutdown,
    ProcessSample and ticks of the request loop) in which every
    ProcessSample finds a request outstanding, the counter of
    outstanding requests stays between 0 and the threshold 3; and the
    execution returns when no ProcessSample is handed a null sample. *)
Theorem C2_outstanding_requests_bounded (calls : list Call) :
  samples_answer_requests calls new = true ->
  (forall this',
     run calls new = Ret this' ->
     0 <= m_cOutstandingSampleRequests this' <= SAMPLE_QUEUE_HIWATER_THRESHOLD)
  /\ (samples_not_null calls = true -> exists this', run calls new = Ret this').
Proof.
  intros Hguard. split.
  - intros this' Hrun. split; [apply N.le_0_l|].
    apply (run_counter_bound calls new this'); [|exact Hguard|exact Hrun].
    cbn. unfold SAMPLE_QUEUE_HIWATER_THRESHOLD. lia.
  - intros Hnotnull.
    destruct (run_returns calls new) as (this' & Hrun & _);
      [intros _; discriminate|exact Hnotnull|].
    exists this'. exact Hrun.
Qed.

Lemma C2_outstanding_requests_bounded_witness :
  samples_answer_requests paced_calls new = true
  /\ run paced_calls new = Ret pacedSink
  /\ 0 <= m_cOutstandingSampleRequests pacedSink <= SAMPLE_QUEUE_HIWATER_THRESHOLD.
Proof.
  split; [vm_compute; reflexivity|].
  split; [vm_compute; reflexivity|].
  apply (C2_outstanding_requests_bounded paced_calls);
    vm_compute; reflexivity.
Defined.

(** ** C4: a tick after shutdown *)

(** C4, as stated, fails: [RequestSamples] ends with [QueueRequest]
    whatever the loop did, so a tick on a shut-down sink schedules the
    next work item (here the second one). *)
Lemma C4_tick_after_shutdown_reschedules :
  m_IsShutdown shutSink = true
  /\ scheduledWorkItems shutSink = 1%nat
  /\ RequestSamples shutSink = Ret (S_OK, set_scheduledWorkItems 2 shutSink).
Proof. vm_compute. repeat split. Qed.

(** C4, amended: a tick that runs after the shutdown flag is set returns
    without a fault, leaves the counter of outstanding requests and the
    event queue as they were (no increment, no request-sample event), and
    changes no field of the sink other than the count of scheduled work
    items. *)
Theorem C4_tick_after_shutdown_requests_nothing (this : t) :
  m_IsShutdown this = true ->
  exists hr this',
    RequestSamples this = Ret (hr, this')
    /\ m_cOutstandingSampleRequests this' = m_cOutstandingSampleRequests this
    /\ m_pEventQueue this' = m_pEventQueue this
    /\ this' = set_scheduledWorkItems (scheduledWorkItems this') this.
Proof.
  intros Hshut. unfold RequestSamples.
  rewrite (RequestSamples_while_shutdown this Hshut). cbn.
  eexists _, _. repeat split.
Qed.

Lemma C4_tick_after_shutdown_requests_nothing_witness :
  m_IsShutdown shutSink = true
  /\ exists hr this',
      RequestSamples shutSink = Ret (hr, this')
      /\ m_cOutstandingSampleRequests this' = m_cOutstandingSampleRequests shutSink
      /\ m_pEventQueue this' = m_pEventQueue shutSink
      /\ this' = set_scheduledWorkItems (scheduledWorkItems this') shutSink.
Proof.
  split; [reflexivity|].
  apply (C4_tick_after_shutdown_requests_nothing shutSink). reflexivity.
Defined.

(** ** C7: Start and the first tick *)

(** C7, as stated, fails: the tick after Start queues the requests
    missing to the threshold, and requests stay outstanding over Stop and
    a new negotiation.  A sink that was started, ticked, handed one
    sample, stopped and given its type again is in Ready with two
    requests outstanding; Start on it succeeds, and the tick that
    follows queues one request-sample event, not three. *)
Lemma C7_tick_after_Start_queues_one_request :
  run renegotiated_calls new = Ret renegotiatedSink
  /\ m_IsShutdown renegotiatedSink = false
  /\ m_state renegotiatedSink = State_Ready
  /\ ValidStateMatrix_at State_Ready OpStart = TRUE
  /\ m_cOutstandingSampleRequests renegotiatedSink = 2
  /\ m_pEventQueue renegotiatedSink
     = Some [StartedEvent; RequestSampleEvent; RequestSampleEvent; RequestSampleEvent]
  /\ exists started ticked,
       Start PRESENTATION_CURRENT_POSITION renegotiatedSink = Ret (S_OK, started)
       /\ m_state started = State_Started
       /\ m_pEventQueue started
          = Some [StartedEvent; RequestSampleEvent; RequestSampleEvent;
                  RequestSampleEvent; StartedEvent]
       /\ RequestSamples started = Ret (S_OK, ticked)
       /\ m_cOutstandingSampleRequests ticked = 3
       /\ m_pEventQueue ticked
          = Some [StartedEvent; RequestSampleEvent; RequestSampleEvent;
                  RequestSampleEvent; StartedEvent; RequestSampleEvent].
Proof.
  do 6 (split; [vm_compute; reflexivity|]).
  eexists _, _. split; [vm_compute; reflexivity|].
  split; [reflexivity|]. split; [reflexivity|].
  split; [vm_compute; reflexivity|]. split; reflexivity.
Qed.

(** C7, amended: on a live sink whose state allows Start, Start
    succeeds, sets the state to Started, queues the stream-started event
    and schedules the request loop; with [c] requests outstanding at the
    Start, the tick that follows queues exactly [3 - c] request-sample
    events after the started event (none when [c] is 3 or more) and
    leaves the counter at the larger of [c] and 3: at the threshold 3
    whenever [c <= 3], with exactly three events queued when no request
    was outstanding. *)
Theorem C7_start_then_first_tick (start : MFTIME) (this : t) (q : list MFEvent) :
  m_IsShutdown this = false ->
  ValidStateMatrix_at (m_state this) OpStart = TRUE ->
  m_pEventQueue this = Some q ->
  let c := m_cOutstandingSampleRequests this in
  let started :=
    set_scheduledWorkItems (S (scheduledWorkItems this))
      (set_m_pEventQueue (Some (q ++ [StartedEvent]))
         (set_m_state State_Started this)) in
  let ticked :=
    set_scheduledWorkItems (S (S (scheduledWorkItems this)))
      (set_m_cOutstandingSampleRequests (N.max c SAMPLE_QUEUE_HIWATER_THRESHOLD)
         (set_m_pEventQueue
            (Some (q ++ StartedEvent
                     :: repeat RequestSampleEvent
                          (N.to_nat (SAMPLE_QUEUE_HIWATER_THRESHOLD - c))))
            started)) in
  Start start this = Ret (S_OK, started)
  /\ m_state started = State_Started
  /\ RequestSamples started = Ret (S_OK, ticked)
  /\ (c <= SAMPLE_QUEUE_HIWATER_THRESHOLD ->
      m_cOutstandingSampleRequests ticked = SAMPLE_QUEUE_HIWATER_THRESHOLD)
  /\ (c = 0 ->
      m_pEventQueue ticked
      = Some (q ++ [StartedEvent; RequestSampleEvent; RequestSampleEvent;
                    RequestSampleEvent])).
Proof.
  intros Hlive Hvalid Hq c started ticked.
  assert (HStart : Start start this = Ret (S_OK, started)).
  { unfold Start, ValidateOperation. rewrite Hvalid. cbn.
    unfold CheckShutdown, QueueEvent, CheckShutdown. cbn. rewrite Hlive, Hq. cbn.
    reflexivity. }
  split; [exact HStart|]. split; [reflexivity|]. split; [|split].
  - rewrite (RequestSamples_live started (q ++ [StartedEvent]) Hlive eq_refl).
    subst ticked. cbn. rewrite <- app_assoc. reflexivity.
  - intros Hc. subst ticked. cbn. apply N.max_r. exact Hc.
  - intros Hc. subst ticked. cbn. fold c. rewrite Hc. reflexivity.
Qed.

Lemma C7_start_then_first_tick_witness :
  m_IsShutdown renegotiatedSink = false
  /\ ValidStateMatrix_at (m_state renegotiatedSink) OpStart = TRUE
  /\ m_pEventQueue renegotiatedSink
     = Some [StartedEvent; RequestSampleEvent; RequestSampleEvent; RequestSampleEvent]
  /\ m_cOutstandingSampleRequests renegotiatedSink = 2
  /\ exists started ticked,
       Start PRESENTATION_CURRENT_POSITION renegotiatedSink = Ret (S_OK, started)
       /\ m_state started = State_Started
       /\ RequestSamples started = Ret (S_OK, ticked)
       /\ m_cOutstandingSampleRequests ticked = 3
       /\ m_pEventQueue ticked
          = Some ([StartedEvent; RequestSampleEvent; RequestSampleEvent;
                   RequestSampleEvent]
                  ++ StartedEvent :: repeat RequestSampleEvent 1).
Proof.
  assert (Hlive : m_IsShutdown renegotiatedSink = false) by (vm_compute; reflexivity).
  assert (Hvalid : ValidStateMatrix_at (m_state renegotiatedSink) OpStart = TRUE)
    by (vm_compute; reflexivity).
  assert (Hq : m_pEventQueue renegotiatedSink
               = Some [StartedEvent; RequestSampleEvent; RequestSampleEvent;
                       RequestSampleEvent])
    by (vm_compute; reflexivity).
  assert (Hc : m_cOutstandingSampleRequests renegotiatedSink = 2)
    by (vm_compute; reflexivity).
  pose proof (C7_start_then_first_tick PRESENTATION_CURRENT_POSITION renegotiatedSink _
                Hlive Hvalid Hq) as (HStart & Hstate & Htick & Hcount & _).
  split; [exact Hlive|]. split; [exact Hvalid|]. split; [exact Hq|].
  split; [exact Hc|].
  eexists _, _. split; [exact HStart|]. split; [exact Hstate|].
  split; [exact Htick|]. split.
  - apply Hcount. rewrite Hc. unfold SAMPLE_QUEUE_HIWATER_THRESHOLD. lia.
  - cbn [m_pEventQueue set_scheduledWorkItems set_m_cOutstandingSampleRequests
         set_m_pEventQueue].
    rewrite Hc. reflexivity.
Defined.

(** ** C1: the state/operation matrix and the calls *)

(** The calls that go through [ValidateOperation] are rejected with
    [MF_E_INVALIDREQUEST], and change nothing, where the matrix says
    [FALSE]. *)
Lemma validated_call_rejected (c : Call) (op : StreamOperation) (this : t) :
  operation_of c = Some op ->
  op <> OpProcessSample ->
  ValidStateMatrix_at (m_state this) op = FALSE ->
  call c this = Ret (MF_E_INVALIDREQUEST, this).
Proof.
  intros Hop Hnot Hfalse.
  destruct c; cbn in Hop; try discriminate; injection Hop as <-;
    try congruence; cbn [call].
  - destruct (m_state this); discriminate Hfalse.
  - unfold Start, ValidateOperation. rewrite Hfalse. reflexivity.
  - unfold Restart, ValidateOperation. rewrite Hfalse. reflexivity.
  - unfold Pause, ValidateOperation. rewrite Hfalse. reflexivity.
  - unfold Stop, ValidateOperation. rewrite Hfalse. reflexivity.
Qed.

(** The same calls succeed only where the matrix says [TRUE]. *)
Lemma validated_call_succeeds_only_if_allowed (c : Call) (op : StreamOperation)
    (this this' : t) :
  operation_of c = Some op ->
  op <> OpProcessSample ->
  call c this = Ret (S_OK, this') ->
  ValidStateMatrix_at (m_state this) op = TRUE.
Proof.
  intros Hop Hnot Hcall.
  destruct (ValidStateMatrix_at (m_state this) op) eqn:Hm; [reflexivity|].
  rewrite (validated_call_rejected c op this Hop Hnot Hm) in Hcall. discriminate.
Qed.

(** C1, at the failing input: the matrix forbids ProcessSample in state
    Ready, and [ValidateOperation] would answer [MF_E_INVALIDREQUEST],
    but [ProcessSample] does not consult it: on a sink in state Ready it
    returns [S_OK] and decrements the counter (from 0 to [2^32 - 1]). *)
Theorem C1_ProcessSample_accepted_in_Ready :
  m_state readySink = State_Ready
  /\ ValidStateMatrix_at State_Ready OpProcessSample = FALSE
  /\ ValidateOperation State_Ready OpProcessSample = MF_E_INVALIDREQUEST
  /\ ProcessSample (Some oneBufferSample) readySink
     = Ret (S_OK, set_m_count 1 (set_m_cOutstandingSampleRequests 4294967295 readySink)).
Proof. vm_compute. repeat split. Qed.

(** ** C5, C6: media type negotiation *)

Lemma ValidateOperation_OpSetMediaType (state : State) :
  ValidateOperation state OpSetMediaType = S_OK.
Proof. destruct state; reflexivity. Qed.

Lemma IsMediaTypeSupported_for_formats_In (g : GUID) (formats : list GUID) (hr : HRESULT) :
  In g formats -> IsMediaTypeSupported_for_formats g formats hr = S_OK.
Proof.
  induction formats as [|format rest IH]; cbn; [contradiction|].
  intros [->|Hin].
  - unfold GUID_eqb. destruct (GUID_eq_dec g g); [reflexivity|congruence].
  - destruct (GUID_eqb g format); [reflexivity|exact (IH Hin)].
Qed.

Lemma SetCurrentMediaType_supported (mediaType : IMFMediaType) (g : GUID) (this : t) :
  m_IsShutdown this = false ->
  subtype mediaType = Some g ->
  In g s_pVideoFormats ->
  SetCurrentMediaType (Some mediaType) this =
  if negb (State_eqb State_Started (m_state this))
     && negb (State_eqb State_Paused (m_state this))
  then (S_OK, set_m_state State_Ready (with_media_type mediaType g this))
  else Flush (with_media_type mediaType g this).
Proof.
  intros Hlive Hsub Hin.
  unfold SetCurrentMediaType, IsMediaTypeSupported, CheckShutdown, GetGUID.
  rewrite Hlive, ValidateOperation_OpSetMediaType, Hsub.
  rewrite (IsMediaTypeSupported_for_formats_In g s_pVideoFormats _ Hin).
  reflexivity.
Qed.


(** What a successful SetCurrentMediaType leaves: the fields it writes
    and the sink around them. *)
Lemma SetCurrentMediaType_supported_fields (mediaType : IMFMediaType) (g : GUID)
    (this : t) :
  m_IsShutdown this = false ->
  subtype mediaType = Some g ->
  In g s_pVideoFormats ->
  let r := SetCurrentMediaType (Some mediaType) this in
  fst r = S_OK
  /\ m_pCurrentType (snd r) = Some mediaType
  /\ m_imageBytesPP (snd r) = SetCurrentMediaType_imageBytesPP g
  /\ m_state (snd r)
     = (if State_eqb State_Started (m_state this) then State_Started
        else if State_eqb State_Paused (m_state this) then State_Paused
        else State_Ready)
  /\ snd r
     = set_m_state (m_state (snd r))
         (set_m_imageBytesPP (m_imageBytesPP (snd r))
            (set_m_pCurrentType (Some mediaType)
               (set_m_dxgiFormat (m_dxgiFormat (snd r)) this))).
Proof.
  intros Hlive Hsub Hin r. subst r.
  rewrite (SetCurrentMediaType_supported mediaType g this Hlive Hsub Hin).
  destruct this as [pSink shut type queue state ratio dxgi counter count items].
  destruct state; cbn; repeat split.
Qed.



(** C6, as stated, fails: the ratio follows the subtypes the chain of
    comparisons tests together, not the family of the subtype.  RGB565
    is of no listed family, so the documented table gives it the
    fail-safe 1/1, and the sink resolves 2/1; 420O is a 4:2:0 format,
    documented 3/2, and the sink resolves the fail-safe 1/1. *)
Lemma C6_ratio_differs_from_documented_table :
  In MFVideoFormat_RGB565 s_pVideoFormats
  /\ fst (SetCurrentMediaType (Some (videoType MFVideoFormat_RGB565)) new) = S_OK
  /\ documented_ratio (documented_family MFVideoFormat_RGB565) = mkFraction 1 1
  /\ m_imageBytesPP (snd (SetCurrentMediaType (Some (videoType MFVideoFormat_RGB565)) new))
     = mkFraction 2 1
  /\ In MFVideoFormat_420O s_pVideoFormats
  /\ fst (SetCurrentMediaType (Some (videoType MFVideoFormat_420O)) new) = S_OK
  /\ documented_ratio (documented_family MFVideoFormat_420O) = mkFraction 3 2
  /\ m_imageBytesPP (snd (SetCurrentMediaType (Some (videoType MFVideoFormat_420O)) new))
     = mkFraction 1 1
  /\ m_imageBytesPP (snd (SetCurrentMediaType (Some (videoType MFVideoFormat_RGB565)) new))
     <> documented_ratio (documented_family MFVideoFormat_RGB565)
  /\ m_imageBytesPP (snd (SetCurrentMediaType (Some (videoType MFVideoFormat_420O)) new))
     <> documented_ratio (documented_family MFVideoFormat_420O).
Proof.
  split; [cbn; tauto|]. do 3 (split; [reflexivity|]).
  split; [cbn; tauto|]. do 3 (split; [reflexivity|]).
  split; discriminate.
Qed.

(** C6, amended: on a live sink, SetCurrentMediaType with a type of a
    supported subtype succeeds and GetCurrentMediaType then returns that
    type, of the negotiated subtype; the bytes per pixel are those of
    the documented family table (3/2 for the 4:2:0 family, 2/1 for 4:2:2
    packed, 3/1 for RGB24, 4/1 for RGB32, 5/4 for v410, the fail-safe 1/1
    for any other accepted subtype) for every supported subtype but
    four: RGB555 and RGB565 resolve to 2/1 and YVU9 to 3/2, not to the
    fail-safe, and 420O resolves to the fail-safe 1/1, not to 3/2. *)
Theorem C6_media_type_round_trip (mediaType : IMFMediaType) (g : GUID) (this : t) :
  m_IsShutdown this = false ->
  subtype mediaType = Some g ->
  In g s_pVideoFormats ->
  let r := SetCurrentMediaType (Some mediaType) this in
  fst r = S_OK
  /\ GetCurrentMediaType true (snd r) = (S_OK, Some mediaType)
  /\ (~ In g [MFVideoFormat_RGB555; MFVideoFormat_RGB565; MFVideoFormat_YVU9;
              MFVideoFormat_420O] ->
      m_imageBytesPP (snd r) = documented_ratio (documented_family g))
  /\ (In g [MFVideoFormat_RGB555; MFVideoFormat_RGB565] ->
      m_imageBytesPP (snd r) = mkFraction 2 1)
  /\ (g = MFVideoFormat_YVU9 -> m_imageBytesPP (snd r) = mkFraction 3 2)
  /\ (g = MFVideoFormat_420O -> m_imageBytesPP (snd r) = mkFraction 1 1).
Proof.
  intros Hlive Hsub Hin r.
  destruct (SetCurrentMediaType_supported_fields mediaType g this Hlive Hsub Hin)
    as (Hhr & Htype & Hratio & _ & Hrest).
  fold r in Hhr, Htype, Hratio, Hrest.
  assert (Hlive' : m_IsShutdown (snd r) = false).
  { rewrite Hrest. destruct this; exact Hlive. }
  split; [exact Hhr|]. split.
  { unfold GetCurrentMediaType, CheckShutdown. rewrite Hlive', Htype. reflexivity. }
  rewrite Hratio. clear - Hin. split; [|split; [|split]].
  - intros Hnot. cbn in Hin.
    repeat (destruct Hin as [<-|Hin];
            [try reflexivity; exfalso; apply Hnot; cbn; tauto|]).
    contradiction.
  - intros H. cbn in H. repeat (destruct H as [<-|H]; [reflexivity|]). contradiction.
  - intros ->. reflexivity.
  - intros ->. reflexivity.
Qed.

Lemma C6_media_type_round_trip_witness :
  m_IsShutdown new = false
  /\ subtype (videoType MFVideoFormat_NV12) = Some MFVideoFormat_NV12
  /\ In MFVideoFormat_NV12 s_pVideoFormats
  /\ fst (SetCurrentMediaType (Some (videoType MFVideoFormat_NV12)) new) = S_OK
  /\ GetCurrentMediaType true readySink = (S_OK, Some (videoType MFVideoFormat_NV12))
  /\ m_imageBytesPP readySink = mkFraction 3 2.
Proof.
  assert (Hin : In MFVideoFormat_NV12 s_pVideoFormats) by (cbn; tauto).
  pose proof (C6_media_type_round_trip (videoType MFVideoFormat_NV12)
                MFVideoFormat_NV12 new eq_refl eq_refl Hin)
    as (Hhr & Hget & Hratio & _).
  split; [reflexivity|]. split; [reflexivity|]. split; [exact Hin|].
  split; [exact Hhr|]. split; [exact Hget|].
  apply Hratio. cbn. intros H.
  repeat (destruct H as [H|H]; [discriminate H|]). exact H.
Defined.

(** ** C3, C10: Shutdown *)

(** C3, as stated, fails: the lifecycle calls of the stream sink go
    through [ValidateOperation] only.  On a sink shut down in state
    Started, [Pause] succeeds and moves the state to Paused. *)
Lemma C3_Pause_accepted_after_Shutdown :
  m_IsShutdown shutSink = true
  /\ m_state shutSink = State_Started
  /\ Pause shutSink = (S_OK, set_m_state State_Paused shutSink).
Proof. vm_compute. repeat split. Qed.

(** C3, amended: after Shutdown on the stream sink, a second Shutdown
    returns the shutdown error, faults nowhere and leaves the sink as it
    is; the calls of the media type handler and of the event generator,
    and GetMediaSink, return the shutdown error and change nothing.  The
    lifecycle calls are gated by the media sink: after its Shutdown, a
    second Shutdown and the clock callbacks that forward to Pause, Stop,
    Restart and Start return the shutdown error without reaching the
    stream. *)
Theorem C3_calls_after_Shutdown (this0 : t) (sink0 : CustomVideoRenderer.t) :
  let this := snd (Shutdown this0) in
  let sink := snd (fst (CustomVideoRenderer.Shutdown sink0)) in
  call Call_Shutdown this = Ret (MF_E_SHUTDOWN, this)
  /\ (forall mediaType,
        SetCurrentMediaType (Some mediaType) this = (MF_E_SHUTDOWN, this))
  /\ (forall pMediaType,
        IsMediaTypeSupported pMediaType this = (MF_E_SHUTDOWN, this))
  /\ GetCurrentMediaType true this = (MF_E_SHUTDOWN, None)
  /\ GetMajorType true this = (MF_E_SHUTDOWN, None)
  /\ (forall dwIndex, GetMediaTypeByIndex dwIndex true this = (MF_E_SHUTDOWN, None))
  /\ GetMediaTypeCount true this = (MF_E_SHUTDOWN, None)
  /\ (forall met g hrStatus,
        QueueEvent met g hrStatus this = Ret (MF_E_SHUTDOWN, this))
  /\ GetMediaSink true this = Ret MF_E_SHUTDOWN
  /\ CustomVideoRenderer.Shutdown sink = (MF_E_SHUTDOWN, sink, None)
  /\ CustomVideoRenderer.OnClockPause sink = Ret (MF_E_SHUTDOWN, sink)
  /\ CustomVideoRenderer.OnClockStop sink = Ret (MF_E_SHUTDOWN, sink)
  /\ CustomVideoRenderer.OnClockRestart sink = Ret (MF_E_SHUTDOWN, sink)
  /\ (forall llClockStartOffset,
        CustomVideoRenderer.OnClockStart llClockStartOffset sink
        = Ret (MF_E_SHUTDOWN, sink)).
Proof.
  destruct this0, sink0. cbn. repeat split; intros; reflexivity.
Qed.

(** C10: Shutdown never reports success.  On any stream sink and on any
    media sink, so also on the first invocation, Shutdown sets the
    shutdown flag and returns [MF_E_SHUTDOWN], a failure code. *)
Theorem C10_Shutdown_returns_failure (this : t) (sink : CustomVideoRenderer.t) :
  fst (Shutdown this) = MF_E_SHUTDOWN
  /\ m_IsShutdown (snd (Shutdown this)) = true
  /\ fst (fst (CustomVideoRenderer.Shutdown sink)) = MF_E_SHUTDOWN
  /\ CustomVideoRenderer.m_IsShutdown (snd (fst (CustomVideoRenderer.Shutdown sink))) = true
  /\ SUCCEEDED MF_E_SHUTDOWN = false
  /\ fst (Shutdown new) = MF_E_SHUTDOWN
  /\ fst (fst (CustomVideoRenderer.Shutdown CustomVideoRenderer.CreateInstance))
     = MF_E_SHUTDOWN.
Proof. repeat split. Qed.

(** ** C8: stream lookup on the media sink *)

(** The part of C8 the code meets: on a live media sink, lookup by index
    0 succeeds with the stream, any other identifier fails with
    [MF_E_INVALIDSTREAMNUMBER] and any index above 0 with
    [MF_E_INVALIDINDEX]. *)
Lemma stream_lookup_live (sink : CustomVideoRenderer.t) (stream : t) (n : DWORD) :
  CustomVideoRenderer.m_IsShutdown sink = false ->
  CustomVideoRenderer.m_pStream sink = Some stream ->
  CustomVideoRenderer.GetStreamSinkByIndex 0 true sink = Ret (S_OK, Some stream)
  /\ (n <> CustomVideoRenderer.STREAM_ID ->
      CustomVideoRenderer.GetStreamSinkById n true sink
      = Ret (MF_E_INVALIDSTREAMNUMBER, None))
  /\ (0 < n ->
      CustomVideoRenderer.GetStreamSinkByIndex n true sink
      = Ret (MF_E_INVALIDINDEX, None)).
Proof.
  intros Hlive Hstream.
  unfold CustomVideoRenderer.GetStreamSinkByIndex, CustomVideoRenderer.GetStreamSinkById,
    CustomVideoRenderer.CheckShutdown.
  rewrite Hlive, Hstream. cbn. split; [reflexivity|]. split.
  - intros Hn. apply N.eqb_neq in Hn. rewrite Hn. reflexivity.
  - intros Hn. apply N.ltb_lt in Hn. rewrite Hn. reflexivity.
Qed.

(** C8, at the failing input: on a new media sink, lookup with the fixed
    stream identifier hands out the stream and returns [E_FAIL], a
    failure code, where lookup by index 0 returns [S_OK]. *)
Theorem C8_GetStreamSinkById_returns_E_FAIL :
  CustomVideoRenderer.GetStreamSinkById CustomVideoRenderer.STREAM_ID true
    CustomVideoRenderer.CreateInstance
  = Ret (E_FAIL, Some new)
  /\ SUCCEEDED E_FAIL = false
  /\ CustomVideoRenderer.GetStreamSinkByIndex 0 true CustomVideoRenderer.CreateInstance
     = Ret (S_OK, Some new).
Proof. repeat split. Qed.

(** ** C9: the enumeration of media types *)

(** C9: on a live sink GetMediaTypeCount reports the fixed count, 19;
    for every index, GetMediaTypeByIndex fails with [MF_E_NO_MORE_TYPES]
    exactly when the index is at or above the count, and below the count
    it returns a type of major type Video whose subtype is the entry of
    the catalog at that index. *)
Theorem C9_media_type_enumeration (dwIndex : DWORD) (this : t) :
  m_IsShutdown this = false ->
  GetMediaTypeCount true this = (S_OK, Some s_dwNumVideoFormats)
  /\ s_dwNumVideoFormats = 19
  /\ (fst (GetMediaTypeByIndex dwIndex true this) = MF_E_NO_MORE_TYPES
      <-> s_dwNumVideoFormats <= dwIndex)
  /\ (dwIndex < s_dwNumVideoFormats ->
      exists g,
        nth_error s_pVideoFormats (N.to_nat dwIndex) = Some g
        /\ GetMediaTypeByIndex dwIndex true this
           = (S_OK, Some (mkMediaType (Some MFMediaType_Video) (Some g)))).
Proof.
  intros Hlive.
  unfold GetMediaTypeCount, GetMediaTypeByIndex, CheckShutdown. rewrite Hlive.
  cbn [negb FAILED SUCCEEDED fst].
  split; [reflexivity|]. split; [reflexivity|]. split.
  - destruct (s_dwNumVideoFormats <=? dwIndex) eqn:Hle; cbn [fst].
    + apply N.leb_le in Hle. split; [intros _; exact Hle | reflexivity].
    + apply N.leb_gt in Hle. split; [discriminate | intros H; lia].
  - intros Hlt.
    exists (nth (N.to_nat dwIndex) s_pVideoFormats GUID_NULL). split.
    + apply nth_error_nth'. unfold s_dwNumVideoFormats in Hlt. lia.
    + replace (s_dwNumVideoFormats <=? dwIndex) with false
        by (symmetry; apply N.leb_gt; exact Hlt).
      reflexivity.
Qed.

Lemma C9_media_type_enumeration_witness :
  m_IsShutdown readySink = false
  /\ GetMediaTypeCount true readySink = (S_OK, Some 19)
  /\ GetMediaTypeByIndex 2 true readySink
     = (S_OK, Some (videoType MFVideoFormat_YUY2))
  /\ fst (GetMediaTypeByIndex 19 true readySink) = MF_E_NO_MORE_TYPES.
Proof.
  pose proof (C9_media_type_enumeration 19 readySink eq_refl) as (Hcount & _ & Hend & _).
  split; [reflexivity|]. split; [exact Hcount|]. split; [reflexivity|].
  apply Hend. unfold s_dwNumVideoFormats. cbn. lia.
Defined.

(** * Further properties of the stream sink *)

(** ** Media type negotiation *)

Lemma IsMediaTypeSupported_for_formats_not_In (g : GUID) (formats : list GUID)
    (hr : HRESULT) :
  ~ In g formats -> IsMediaTypeSupported_for_formats g formats hr = hr.
Proof.
  induction formats as [|format rest IH]; cbn; [reflexivity|].
  intros Hnot. destruct (GUID_eqb g format) eqn:Heq.
  - apply GUID_eqb_eq in Heq. exfalso. apply Hnot. left. congruence.
  - apply IH. intros Hin. apply Hnot. right. exact Hin.
Qed.

Lemma In_s_pVideoFormats_dec (g : GUID) :
  {In g s_pVideoFormats} + {~ In g s_pVideoFormats}.
Proof. apply (in_dec GUID_eq_dec). Defined.

(** IsMediaTypeSupported looks at the subtype only.  On a live sink it
    accepts a type exactly when its subtype is in the catalog, whatever
    the major type; a type without subtype fails with the attribute
    error, an unlisted subtype with [MF_E_INVALIDMEDIATYPE], both leaving
    the sink untouched; and the only field the call ever writes is
    [m_dxgiFormat]. *)
Theorem IsMediaTypeSupported_accepts_catalog_subtypes
    (mediaType : IMFMediaType) (this : t) :
  m_IsShutdown this = false ->
  let r := IsMediaTypeSupported (Some mediaType) this in
  (fst r = S_OK <-> exists g, subtype mediaType = Some g /\ In g s_pVideoFormats)
  /\ (subtype mediaType = None -> r = (MF_E_ATTRIBUTENOTFOUND, this))
  /\ (forall g, subtype mediaType = Some g -> ~ In g s_pVideoFormats ->
      r = (MF_E_INVALIDMEDIATYPE, this))
  /\ snd r = set_m_dxgiFormat (m_dxgiFormat (snd r)) this.
Proof.
  intros Hlive r. subst r.
  unfold IsMediaTypeSupported, CheckShutdown, GetGUID. rewrite Hlive.
  cbn [FAILED SUCCEEDED negb].
  destruct (subtype mediaType) as [g|] eqn:Hsub; cbn [FAILED SUCCEEDED negb].
  - destruct (In_s_pVideoFormats_dec g) as [Hin|Hnot].
    + rewrite (IsMediaTypeSupported_for_formats_In g _ _ Hin).
      cbn [FAILED SUCCEEDED negb fst snd].
      split; [|split; [|split]].
      * split; [intros _; exists g; split; [reflexivity|exact Hin]|reflexivity].
      * discriminate.
      * intros g' [= <-] Hnot. contradiction.
      * destruct this; reflexivity.
    + rewrite (IsMediaTypeSupported_for_formats_not_In g _ _ Hnot).
      cbn [FAILED SUCCEEDED negb fst snd].
      split; [|split; [|split]].
      * split; [discriminate|]. intros (g' & [= <-] & Hin). contradiction.
      * discriminate.
      * reflexivity.
      * destruct this; reflexivity.
  - split; [|split; [|split]].
    + split; [discriminate|]. intros (g & Hg & _). discriminate Hg.
    + reflexivity.
    + discriminate.
    + destruct this; reflexivity.
Qed.

Lemma IsMediaTypeSupported_accepts_catalog_subtypes_witness :
  m_IsShutdown new = false
  /\ fst (IsMediaTypeSupported
            (Some (mkMediaType (Some MFMediaType_Audio) (Some MFVideoFormat_I420))) new)
     = S_OK
  /\ IsMediaTypeSupported (Some (videoType MFVideoFormat_H264)) new
     = (MF_E_INVALIDMEDIATYPE, new).
Proof.
  split; [reflexivity|]. split.
  - apply (IsMediaTypeSupported_accepts_catalog_subtypes
             (mkMediaType (Some MFMediaType_Audio) (Some MFVideoFormat_I420)) new eq_refl).
    exists MFVideoFormat_I420. split; [reflexivity|]. cbn. tauto.
  - reflexivity.
Defined.

Lemma SetCurrentMediaType_unsupported (mediaType : IMFMediaType) (this : t) :
  m_IsShutdown this = false ->
  (forall g, subtype mediaType = Some g -> ~ In g s_pVideoFormats) ->
  SetCurrentMediaType (Some mediaType) this
  = (match subtype mediaType with
     | Some _ => MF_E_INVALIDMEDIATYPE
     | None => MF_E_ATTRIBUTENOTFOUND
     end, this).
Proof.
  intros Hlive Hnot.
  unfold SetCurrentMediaType, IsMediaTypeSupported, CheckShutdown, GetGUID.
  rewrite Hlive, ValidateOperation_OpSetMediaType.
  destruct (subtype mediaType) as [g|]; [|reflexivity].
  rewrite (IsMediaTypeSupported_for_formats_not_In g _ _ (Hnot g eq_refl)).
  reflexivity.
Qed.

Lemma SetCurrentMediaType_supported_S_OK (mediaType : IMFMediaType) (g : GUID) (this : t) :
  m_IsShutdown this = false ->
  subtype mediaType = Some g ->
  In g s_pVideoFormats ->
  fst (SetCurrentMediaType (Some mediaType) this) = S_OK
  /\ m_IsShutdown (snd (SetCurrentMediaType (Some mediaType) this)) = false
  /\ m_pCurrentType (snd (SetCurrentMediaType (Some mediaType) this)) = Some mediaType
  /\ m_dxgiFormat (snd (SetCurrentMediaType (Some mediaType) this))
     = IsMediaTypeSupported_for_mapping g s_DXGIFormatMapping (m_dxgiFormat this).
Proof.
  intros Hlive Hsub Hin.
  rewrite (SetCurrentMediaType_supported mediaType g this Hlive Hsub Hin).
  destruct (_ && _); cbn; repeat split; exact Hlive.
Qed.

(** SetCurrentMediaType succeeds exactly on a live sink with a candidate
    whose subtype is in the catalog; in every other case (null
    candidate, sink shut down, subtype missing or unlisted) it returns a
    failure code and leaves every field of the sink as it was. *)
Theorem SetCurrentMediaType_succeeds_or_changes_nothing
    (pMediaType : option IMFMediaType) (this : t) :
  let r := SetCurrentMediaType pMediaType this in
  (fst r = S_OK
   <-> m_IsShutdown this = false
       /\ exists mediaType g,
            pMediaType = Some mediaType /\ subtype mediaType = Some g
            /\ In g s_pVideoFormats)
  /\ (fst r <> S_OK -> snd r = this).
Proof.
  intros r. subst r.
  destruct pMediaType as [mediaType|].
  2:{ split; [split; [discriminate|]|reflexivity].
      intros (_ & mt & g & Hp & _). discriminate Hp. }
  destruct (m_IsShutdown this) eqn:Hlive.
  { assert (H : SetCurrentMediaType (Some mediaType) this = (MF_E_SHUTDOWN, this)).
    { unfold SetCurrentMediaType, CheckShutdown. rewrite Hlive. reflexivity. }
    rewrite H. split; [split; [discriminate|]|reflexivity].
    intros (Hl & _). discriminate Hl. }
  destruct (subtype mediaType) as [g|] eqn:Hsub.
  - destruct (In_s_pVideoFormats_dec g) as [Hin|Hnot].
    + destruct (SetCurrentMediaType_supported_S_OK mediaType g this Hlive Hsub Hin)
        as (Hok & _).
      split; [|intros Hne; contradiction].
      split; [|intros _; exact Hok].
      intros _. split; [reflexivity|]. exists mediaType, g. repeat split; assumption.
    + rewrite (SetCurrentMediaType_unsupported mediaType this Hlive).
      * rewrite Hsub. split; [split; [discriminate|]|reflexivity].
        intros (_ & mt & g' & [= <-] & Hg & Hin). rewrite Hsub in Hg.
        injection Hg as <-. contradiction.
      * intros g' Hg. rewrite Hsub in Hg. injection Hg as <-. exact Hnot.
  - rewrite (SetCurrentMediaType_unsupported mediaType this Hlive).
    + rewrite Hsub. split; [split; [discriminate|]|reflexivity].
      intros (_ & mt & g' & [= <-] & Hg & _). rewrite Hsub in Hg. discriminate Hg.
    + intros g' Hg. rewrite Hsub in Hg. discriminate Hg.
Qed.

Lemma IsMediaTypeSupported_for_mapping_unmapped (g : GUID) (mapping : list FormatEntry)
    (dxgiFormat : DXGI_FORMAT) :
  ~ In g (map Subtype mapping) ->
  IsMediaTypeSupported_for_mapping g mapping dxgiFormat = dxgiFormat.
Proof.
  induction mapping as [|e rest IH]; cbn; [reflexivity|].
  intros Hnot. destruct (GUID_eqb (Subtype e) g) eqn:Heq.
  - apply GUID_eqb_eq in Heq. exfalso. apply Hnot. left. exact Heq.
  - apply IH. intros Hin. apply Hnot. right. exact Hin.
Qed.

Lemma IsMediaTypeSupported_for_mapping_mapped (g : GUID) (mapping : list FormatEntry)
    (dxgiFormat : DXGI_FORMAT) :
  In g (map Subtype mapping) ->
  exists e,
    In e mapping /\ Subtype e = g
    /\ IsMediaTypeSupported_for_mapping g mapping dxgiFormat = DXGIFormat e.
Proof.
  induction mapping as [|e rest IH]; cbn; [contradiction|].
  intros Hin. destruct (GUID_eqb (Subtype e) g) eqn:Heq.
  - apply GUID_eqb_eq in Heq. exists e. repeat split; [left; reflexivity|exact Heq].
  - destruct Hin as [Hhead|Hin].
    + apply GUID_eqb_eq in Hhead. congruence.
    + destruct (IH Hin) as (e' & He' & Hs & Hr).
      exists e'. repeat split; [right; exact He'|exact Hs|exact Hr].
Qed.

(** The display format follows the subtype only where the mapping table
    has an entry for it.  For an accepted subtype without entry (such as
    IYUV or RGB24) [m_dxgiFormat] keeps the value it had before the call:
    it is not reset to [DXGI_FORMAT_UNKNOWN], so after a change from a
    mapped subtype to an unmapped one it still names the old format. *)
Theorem display_format_kept_for_unmapped_subtype
    (mediaType : IMFMediaType) (g : GUID) (this : t) :
  m_IsShutdown this = false ->
  subtype mediaType = Some g ->
  In g s_pVideoFormats ->
  let this' := snd (SetCurrentMediaType (Some mediaType) this) in
  m_pCurrentType this' = Some mediaType
  /\ (~ In g (map Subtype s_DXGIFormatMapping) ->
      m_dxgiFormat this' = m_dxgiFormat this)
  /\ (In g (map Subtype s_DXGIFormatMapping) ->
      exists e, In e s_DXGIFormatMapping /\ Subtype e = g
                /\ m_dxgiFormat this' = DXGIFormat e).
Proof.
  intros Hlive Hsub Hin this'. subst this'.
  destruct (SetCurrentMediaType_supported_S_OK mediaType g this Hlive Hsub Hin)
    as (_ & _ & Htype & Hdxgi).
  split; [exact Htype|]. rewrite Hdxgi. split.
  - apply IsMediaTypeSupported_for_mapping_unmapped.
  - apply IsMediaTypeSupported_for_mapping_mapped.
Qed.

Lemma display_format_kept_for_unmapped_subtype_witness :
  m_IsShutdown readySink = false
  /\ subtype (videoType MFVideoFormat_IYUV) = Some MFVideoFormat_IYUV
  /\ In MFVideoFormat_IYUV s_pVideoFormats
  /\ m_dxgiFormat readySink = DXGI_FORMAT_NV12
  /\ m_pCurrentType (snd (SetCurrentMediaType (Some (videoType MFVideoFormat_IYUV)) readySink))
     = Some (videoType MFVideoFormat_IYUV)
  /\ m_dxgiFormat (snd (SetCurrentMediaType (Some (videoType MFVideoFormat_IYUV)) readySink))
     = DXGI_FORMAT_NV12.
Proof.
  assert (Hin : In MFVideoFormat_IYUV s_pVideoFormats) by (cbn; tauto).
  pose proof (display_format_kept_for_unmapped_subtype
                (videoType MFVideoFormat_IYUV) MFVideoFormat_IYUV readySink
                eq_refl eq_refl Hin) as (Htype & Hkept & _).
  split; [reflexivity|]. split; [reflexivity|]. split; [exact Hin|].
  split; [reflexivity|]. split; [exact Htype|].
  apply Hkept. cbn. intros H.
  repeat (destruct H as [H|H]; [discriminate H|]). contradiction.
Defined.

(** Every media type the sink offers through GetMediaTypeByIndex is one
    it accepts: on a live sink, for every index below the count,
    SetCurrentMediaType with the offered type succeeds, after which
    GetCurrentMediaType returns that type and GetMajorType returns
    Video. *)
Theorem offered_media_types_are_accepted (dwIndex : DWORD) (this : t) :
  m_IsShutdown this = false ->
  dwIndex < s_dwNumVideoFormats ->
  exists offered,
    GetMediaTypeByIndex dwIndex true this = (S_OK, Some offered)
    /\ fst (SetCurrentMediaType (Some offered) this) = S_OK
    /\ GetCurrentMediaType true (snd (SetCurrentMediaType (Some offered) this))
       = (S_OK, Some offered)
    /\ GetMajorType true (snd (SetCurrentMediaType (Some offered) this))
       = (S_OK, Some MFMediaType_Video).
Proof.
  intros Hlive Hlt.
  set (g := nth (N.to_nat dwIndex) s_pVideoFormats GUID_NULL).
  assert (Hin : In g s_pVideoFormats).
  { apply nth_In. unfold s_dwNumVideoFormats in Hlt. lia. }
  exists (mkMediaType (Some MFMediaType_Video) (Some g)). split.
  - unfold GetMediaTypeByIndex, CheckShutdown. rewrite Hlive.
    cbn [negb FAILED SUCCEEDED].
    replace (s_dwNumVideoFormats <=? dwIndex) with false
      by (symmetry; apply N.leb_gt; exact Hlt).
    reflexivity.
  - destruct (SetCurrentMediaType_supported_S_OK
                (mkMediaType (Some MFMediaType_Video) (Some g)) g this Hlive eq_refl Hin)
      as (Hok & Hlive' & Htype & _).
    split; [exact Hok|].
    unfold GetCurrentMediaType, GetMajorType, CheckShutdown.
    rewrite Hlive', Htype. split; reflexivity.
Qed.

Lemma offered_media_types_are_accepted_witness :
  m_IsShutdown new = false
  /\ 18 < s_dwNumVideoFormats
  /\ exists offered,
       GetMediaTypeByIndex 18 true new = (S_OK, Some offered)
       /\ fst (SetCurrentMediaType (Some offered) new) = S_OK
       /\ GetCurrentMediaType true (snd (SetCurrentMediaType (Some offered) new))
          = (S_OK, Some offered)
       /\ GetMajorType true (snd (SetCurrentMediaType (Some offered) new))
          = (S_OK, Some MFMediaType_Video).
Proof.
  assert (Hlt : 18 < s_dwNumVideoFormats) by reflexivity.
  split; [reflexivity|]. split; [exact Hlt|].
  exact (offered_media_types_are_accepted 18 new eq_refl Hlt).
Defined.

(** ** What a call leaves behind *)

Lemma Start_result (start : MFTIME) (this : t) (hr : HRESULT) (this' : t) :
  Start start this = Ret (hr, this') ->
  (ValidStateMatrix_at (m_state this) OpStart = FALSE
   /\ hr = MF_E_INVALIDREQUEST /\ this' = this)
  \/ (ValidStateMatrix_at (m_state this) OpStart = TRUE
      /\ hr = S_OK
      /\ ((m_IsShutdown this = true
           /\ this' = set_scheduledWorkItems (S (scheduledWorkItems this))
                        (set_m_state State_Started this))
          \/ (m_IsShutdown this = false
              /\ exists q,
                   m_pEventQueue this = Some q
                   /\ this' = set_scheduledWorkItems (S (scheduledWorkItems this))
                                (set_m_pEventQueue (Some (q ++ [StartedEvent]))
                                   (set_m_state State_Started this))))).
Proof.
  unfold Start, ValidateOperation.
  destruct (ValidStateMatrix_at (m_state this) OpStart); cbn.
  - unfold CheckShutdown, QueueEvent, CheckShutdown. cbn.
    destruct (m_IsShutdown this) eqn:Hshut; cbn.
    + intros [= <- <-]. right. repeat split. left. split; reflexivity.
    + destruct (m_pEventQueue this) as [q|] eqn:Hq; cbn; [|discriminate].
      intros [= <- <-]. right. repeat split. right. split; [reflexivity|].
      exists q. split; reflexivity.
  - intros [= <- <-]. left. repeat split.
Qed.

Lemma RequestSamples_while_result (this this1 : t) :
  RequestSamples_while this = Ret this1 ->
  this1 = this
  \/ (m_IsShutdown this = false
      /\ m_cOutstandingSampleRequests this < SAMPLE_QUEUE_HIWATER_THRESHOLD
      /\ exists q,
           m_pEventQueue this = Some q
           /\ this1 = set_m_cOutstandingSampleRequests SAMPLE_QUEUE_HIWATER_THRESHOLD
                        (set_m_pEventQueue
                           (Some (q ++ repeat RequestSampleEvent
                                         (N.to_nat (SAMPLE_QUEUE_HIWATER_THRESHOLD
                                                    - m_cOutstandingSampleRequests this))))
                           this)).
Proof.
  destruct (m_IsShutdown this) eqn:Hshut.
  { rewrite (RequestSamples_while_shutdown this Hshut). intros [= <-]. left. reflexivity. }
  destruct (NeedMoreSamples this) eqn:Hneed.
  - pose proof Hneed as Hlt. unfold NeedMoreSamples in Hlt. apply N.ltb_lt in Hlt.
    destruct (m_pEventQueue this) as [q|] eqn:Hq.
    + rewrite (RequestSamples_while_live
                 (N.to_nat (SAMPLE_QUEUE_HIWATER_THRESHOLD - m_cOutstandingSampleRequests this))
                 this q Hshut Hq) by lia.
      intros [= <-]. right. split; [reflexivity|]. split; [exact Hlt|].
      exists q. split; reflexivity.
    + rewrite RequestSamples_while_unfold, Hneed.
      unfold CheckShutdown, QueueEvent, CheckShutdown. cbn.
      rewrite Hshut, Hq. cbn. discriminate.
  - rewrite RequestSamples_while_unfold, Hneed. intros [= <-]. left. reflexivity.
Qed.

Lemma ProcessSample_result (pSample : option IMFSample) (this : t) (hr : HRESULT)
    (this' : t) :
  ProcessSample pSample this = Ret (hr, this') ->
  this' = set_m_cOutstandingSampleRequests
            (DWORD_dec (m_cOutstandingSampleRequests this))
            (set_m_count (INT_inc (m_count this)) this).
Proof.
  unfold ProcessSample. destruct pSample as [sample|]; [|discriminate].
  case_all; intros [= _ <-]; reflexivity.
Qed.

Lemma lifecycle_result (f : t -> HRESULT * t) (op : StreamOperation) (target : State)
    (this : t) :
  (forall this, f this =
     let hr := ValidateOperation (m_state this) op in
     if SUCCEEDED hr then (hr, set_m_state target this) else (hr, this)) ->
  (ValidStateMatrix_at (m_state this) op = FALSE
   /\ f this = (MF_E_INVALIDREQUEST, this))
  \/ (ValidStateMatrix_at (m_state this) op = TRUE
      /\ f this = (S_OK, set_m_state target this)).
Proof.
  intros Hf. rewrite Hf. unfold ValidateOperation.
  destruct (ValidStateMatrix_at (m_state this) op); [right|left]; split; reflexivity.
Qed.

Lemma SetCurrentMediaType_succeeds_or_fails (pMediaType : option IMFMediaType)
    (this : t) :
  (exists mediaType g,
     pMediaType = Some mediaType /\ m_IsShutdown this = false
     /\ subtype mediaType = Some g /\ In g s_pVideoFormats)
  \/ (fst (SetCurrentMediaType pMediaType this) <> S_OK
      /\ snd (SetCurrentMediaType pMediaType this) = this).
Proof.
  destruct pMediaType as [mediaType|]; [|right; split; [discriminate|reflexivity]].
  destruct (m_IsShutdown this) eqn:Hlive.
  { right. unfold SetCurrentMediaType, CheckShutdown. rewrite Hlive.
    split; [discriminate|reflexivity]. }
  destruct (subtype mediaType) as [g|] eqn:Hsub.
  - destruct (In_s_pVideoFormats_dec g) as [Hin|Hnot].
    + left. exists mediaType, g. repeat split; assumption.
    + right. rewrite (SetCurrentMediaType_unsupported mediaType this Hlive).
      * rewrite Hsub. split; [discriminate|reflexivity].
      * intros g' Hg. rewrite Hsub in Hg. injection Hg as <-. exact Hnot.
  - right. rewrite (SetCurrentMediaType_unsupported mediaType this Hlive).
    + rewrite Hsub. split; [discriminate|reflexivity].
    + intros g' Hg. rewrite Hsub in Hg. discriminate Hg.
Qed.

(** ** The state and the current type *)

Lemma TypeNotSet_row (op : StreamOperation) :
  op <> OpSetMediaType -> ValidStateMatrix_at State_TypeNotSet op = FALSE.
Proof. destruct op; intros H; try reflexivity. contradiction. Qed.

Lemma lifecycle_state_tells_type (f : t -> HRESULT * t) (op : StreamOperation)
    (target : State) (this : t) :
  (forall this, f this =
     let hr := ValidateOperation (m_state this) op in
     if SUCCEEDED hr then (hr, set_m_state target this) else (hr, this)) ->
  op <> OpSetMediaType ->
  target <> State_TypeNotSet ->
  state_tells_type this -> state_tells_type (snd (f this)).
Proof.
  intros Hf Hop Htarget Hinv.
  destruct (lifecycle_result f op target this Hf) as [[_ ->]|[Hallowed ->]];
    [exact Hinv|].
  unfold state_tells_type in *. cbn. intros Hlive. specialize (Hinv Hlive).
  split; [intros H; contradiction|].
  intros Hnone. apply Hinv in Hnone. rewrite Hnone in Hallowed.
  rewrite (TypeNotSet_row op Hop) in Hallowed. discriminate.
Qed.

Lemma call_state_tells_type (c : Call) (this : t) (hr : HRESULT) (this' : t) :
  state_tells_type this ->
  call c this = Ret (hr, this') ->
  state_tells_type this'.
Proof.
  intros Hinv Hcall. destruct c; cbn [call] in Hcall.
  - injection Hcall as Hcall.
    destruct (SetCurrentMediaType_succeeds_or_fails pMediaType this)
      as [(mediaType & g & -> & Hlive & Hsub & Hin)|[_ Hsame]].
    + rewrite (SetCurrentMediaType_supported mediaType g this Hlive Hsub Hin) in Hcall.
      unfold state_tells_type in *. specialize (Hinv Hlive).
      destruct (m_state this) eqn:Hstate; cbn in Hcall; injection Hcall as _ <-;
        cbn; intros _; rewrite ?Hstate; split; try discriminate.
      all: intros _; exfalso; destruct Hinv as [_ Hinv].
      all: destruct (m_pCurrentType this); [discriminate|].
    + rewrite Hcall in Hsame. cbn in Hsame. rewrite Hsame. exact Hinv.
  - destruct (Start_result _ _ _ _ Hcall)
      as [(_ & _ & ->)|(Hallowed & _ & [(Hshut & ->)|(Hlive & q & Hq & ->)])].
    + exact Hinv.
    + intros Hl. cbn in Hl. congruence.
    + unfold state_tells_type in *. cbn. intros _. specialize (Hinv Hlive).
      split; [discriminate|]. intros Hnone. apply Hinv in Hnone.
      rewrite Hnone in Hallowed. discriminate.
  - injection Hcall as Hcall. apply (f_equal snd) in Hcall. cbn [snd] in Hcall.
    rewrite <- Hcall.
    apply (lifecycle_state_tells_type Restart OpRestart State_Started);
      [reflexivity|discriminate|discriminate|exact Hinv].
  - injection Hcall as Hcall. apply (f_equal snd) in Hcall. cbn [snd] in Hcall.
    rewrite <- Hcall.
    apply (lifecycle_state_tells_type Pause OpPause State_Paused);
      [reflexivity|discriminate|discriminate|exact Hinv].
  - injection Hcall as Hcall. apply (f_equal snd) in Hcall. cbn [snd] in Hcall.
    rewrite <- Hcall.
    apply (lifecycle_state_tells_type Stop OpStop State_Stopped);
      [reflexivity|discriminate|discriminate|exact Hinv].
  - injection Hcall as _ <-. exact Hinv.
  - rewrite (ProcessSample_result _ _ _ _ Hcall). exact Hinv.
  - unfold RequestSamples in Hcall.
    destruct (RequestSamples_while this) as [this1|] eqn:Hloop; [|discriminate].
    cbn in Hcall. injection Hcall as _ <-.
    destruct (RequestSamples_while_result _ _ Hloop) as [->|(_ & _ & q & _ & ->)];
      exact Hinv.
  - injection Hcall as _ <-. intros Hl. cbn in Hl. discriminate.
Qed.

Lemma run_state_tells_type (calls : list Call) : forall (this this' : t),
  state_tells_type this ->
  run calls this = Ret this' ->
  state_tells_type this'.
Proof.
  induction calls as [|c rest IH]; intros this this' Hinv Hrun.
  - injection Hrun as <-. exact Hinv.
  - cbn [run] in Hrun.
    destruct (call c this) as [[hr this1]|] eqn:Hcall; [|discriminate].
    cbn in Hrun. apply (IH this1 this'); [|exact Hrun].
    exact (call_state_tells_type c this hr this1 Hinv Hcall).
Qed.

(** Along every execution from a new sink, as long as the sink is live,
    the state is TypeNotSet exactly while no media type was accepted:
    GetCurrentMediaType answers [MF_E_NOT_INITIALIZED] exactly in state
    TypeNotSet and succeeds in every other state. *)
Theorem current_type_held_iff_state_set (calls : list Call) (this' : t) :
  run calls new = Ret this' ->
  m_IsShutdown this' = false ->
  (m_state this' = State_TypeNotSet <-> m_pCurrentType this' = None)
  /\ (fst (GetCurrentMediaType true this') = MF_E_NOT_INITIALIZED
      <-> m_state this' = State_TypeNotSet)
  /\ (fst (GetCurrentMediaType true this') = S_OK
      <-> m_state this' <> State_TypeNotSet).
Proof.
  intros Hrun Hlive.
  assert (Hinv : state_tells_type this').
  { apply (run_state_tells_type calls new this'); [|exact Hrun].
    intros _. split; reflexivity. }
  specialize (Hinv Hlive). split; [exact Hinv|].
  unfold GetCurrentMediaType, CheckShutdown. rewrite Hlive. cbn.
  destruct (m_pCurrentType this') as [current|]; cbn.
  - split; split; try discriminate.
    + intros Hs. apply Hinv in Hs. discriminate.
    + intros _ Hs. apply Hinv in Hs. discriminate.
    + reflexivity.
  - split; split; try discriminate.
    + intros _. apply Hinv. reflexivity.
    + reflexivity.
    + intros Hs. exfalso. apply Hs. apply Hinv. reflexivity.
Qed.

Lemma current_type_held_iff_state_set_witness :
  run paced_calls new = Ret pacedSink
  /\ m_IsShutdown pacedSink = false
  /\ m_state pacedSink = State_Started
  /\ fst (GetCurrentMediaType true pacedSink) = S_OK.
Proof.
  assert (Hrun : run paced_calls new = Ret pacedSink) by (vm_compute; reflexivity).
  pose proof (current_type_held_iff_state_set paced_calls pacedSink Hrun eq_refl)
    as (_ & _ & Hok).
  split; [exact Hrun|]. split; [reflexivity|]. split; [reflexivity|].
  apply Hok. discriminate.
Defined.

(** ** Leaving TypeNotSet *)

Lemma call_state_change (c : Call) (this : t) (hr : HRESULT) (this' : t) :
  call c this = Ret (hr, this') ->
  m_state this' = m_state this
  \/ (hr = S_OK
      /\ exists op target,
           transition_of c = Some (op, target)
           /\ ValidStateMatrix_at (m_state this) op = TRUE
           /\ m_state this' = target).
Proof.
  intros Hcall. destruct c; cbn [call] in Hcall.
  - injection Hcall as Hcall.
    destruct (SetCurrentMediaType_succeeds_or_fails pMediaType this)
      as [(mediaType & g & -> & Hlive & Hsub & Hin)|[_ Hsame]].
    + rewrite (SetCurrentMediaType_supported mediaType g this Hlive Hsub Hin) in Hcall.
      destruct (negb (State_eqb State_Started (m_state this))
                && negb (State_eqb State_Paused (m_state this)));
        cbn in Hcall; injection Hcall as <- <-.
      * right. split; [reflexivity|]. exists OpSetMediaType, State_Ready.
        repeat split. destruct (m_state this); reflexivity.
      * left. reflexivity.
    + rewrite Hcall in Hsame. cbn in Hsame. subst this'. left. reflexivity.
  - destruct (Start_result _ _ _ _ Hcall)
      as [(_ & _ & ->)|(Hallowed & -> & [(_ & ->)|(_ & q & _ & ->)])].
    + left. reflexivity.
    + right. split; [reflexivity|]. exists OpStart, State_Started.
      repeat split. exact Hallowed.
    + right. split; [reflexivity|]. exists OpStart, State_Started.
      repeat split. exact Hallowed.
  - injection Hcall as Hcall.
    destruct (lifecycle_result Restart OpRestart State_Started this (fun _ => eq_refl))
      as [[_ Hr]|[Hallowed Hr]]; rewrite Hr in Hcall; injection Hcall as <- <-.
    + left. reflexivity.
    + right. split; [reflexivity|]. exists OpRestart, State_Started.
      repeat split. exact Hallowed.
  - injection Hcall as Hcall.
    destruct (lifecycle_result Pause OpPause State_Paused this (fun _ => eq_refl))
      as [[_ Hr]|[Hallowed Hr]]; rewrite Hr in Hcall; injection Hcall as <- <-.
    + left. reflexivity.
    + right. split; [reflexivity|]. exists OpPause, State_Paused.
      repeat split. exact Hallowed.
  - injection Hcall as Hcall.
    destruct (lifecycle_result Stop OpStop State_Stopped this (fun _ => eq_refl))
      as [[_ Hr]|[Hallowed Hr]]; rewrite Hr in Hcall; injection Hcall as <- <-.
    + left. reflexivity.
    + right. split; [reflexivity|]. exists OpStop, State_Stopped.
      repeat split. exact Hallowed.
  - injection Hcall as _ <-. left. reflexivity.
  - rewrite (ProcessSample_result _ _ _ _ Hcall). left. reflexivity.
  - unfold RequestSamples in Hcall.
    destruct (RequestSamples_while this) as [this1|] eqn:Hloop; [|discriminate].
    cbn in Hcall. injection Hcall as _ <-.
    destruct (RequestSamples_while_result _ _ Hloop) as [->|(_ & _ & q & _ & ->)];
      left; reflexivity.
  - injection Hcall as _ <-. left. reflexivity.
Qed.

(** State TypeNotSet is left by a successful SetCurrentMediaType only,
    which leads to Ready, and is never entered again; while the sink is
    in it, Start, Restart, Pause and Stop are rejected with
    [MF_E_INVALIDREQUEST] and change nothing. *)
Theorem TypeNotSet_left_by_negotiation_only (c : Call) (this : t) (hr : HRESULT)
    (this' : t) :
  call c this = Ret (hr, this') ->
  (m_state this <> State_TypeNotSet -> m_state this' <> State_TypeNotSet)
  /\ (m_state this = State_TypeNotSet -> m_state this' <> State_TypeNotSet ->
      hr = S_OK /\ m_state this' = State_Ready
      /\ exists mediaType, c = Call_SetCurrentMediaType (Some mediaType))
  /\ (m_state this = State_TypeNotSet ->
      (exists op, operation_of c = Some op
                  /\ In op [OpStart; OpRestart; OpPause; OpStop]) ->
      hr = MF_E_INVALIDREQUEST /\ this' = this).
Proof.
  intros Hcall.
  pose proof (call_state_change c this hr this' Hcall) as Hchange.
  split; [|split].
  - intros Hset. destruct Hchange as [->|(_ & op & target & Ht & _ & ->)];
      [exact Hset|].
    destruct c as [[?|]| | | | | | | |]; cbn in Ht; try discriminate;
      injection Ht as _ <-; discriminate.
  - intros Hnot Hleft.
    destruct Hchange as [Hsame|(-> & op & target & Ht & Hallowed & Htarget)];
      [congruence|].
    rewrite Hnot in Hallowed.
    destruct c as [[mediaType|]| | | | | | | |]; cbn in Ht; try discriminate;
      injection Ht as <- <-; try discriminate Hallowed.
    repeat split; [exact Htarget|]. exists mediaType. reflexivity.
  - intros Hnot (op & Hop & Hin).
    assert (Hne : op <> OpProcessSample /\ op <> OpSetMediaType).
    { cbn in Hin. intuition (subst; discriminate). }
    destruct Hne as [Hns Hnt].
    rewrite (validated_call_rejected c op this Hop Hns) in Hcall.
    + injection Hcall as <- <-. split; reflexivity.
    + rewrite Hnot. apply TypeNotSet_row. exact Hnt.
Qed.

Lemma TypeNotSet_left_by_negotiation_only_witness :
  call (Call_Start 0%Z) new = Ret (MF_E_INVALIDREQUEST, new)
  /\ m_state new = State_TypeNotSet
  /\ (exists op, operation_of (Call_Start 0%Z) = Some op
                 /\ In op [OpStart; OpRestart; OpPause; OpStop])
  /\ (MF_E_INVALIDREQUEST = MF_E_INVALIDREQUEST /\ new = new).
Proof.
  assert (Hcall : call (Call_Start 0%Z) new = Ret (MF_E_INVALIDREQUEST, new))
    by reflexivity.
  assert (Hop : exists op, operation_of (Call_Start 0%Z) = Some op
                           /\ In op [OpStart; OpRestart; OpPause; OpStop]).
  { exists OpStart. split; [reflexivity|]. left. reflexivity. }
  pose proof (TypeNotSet_left_by_negotiation_only _ _ _ _ Hcall) as (_ & _ & Hrej).
  split; [exact Hcall|]. split; [reflexivity|]. split; [exact Hop|].
  exact (Hrej eq_refl Hop).
Defined.

(** ** After Shutdown *)

Lemma call_stays_shut (c : Call) (this0 this : t) (hr : HRESULT) (this' : t) :
  stays_shut this0 this ->
  call c this = Ret (hr, this') ->
  stays_shut this0 this'.
Proof.
  intros Hinv Hcall. pose proof Hinv as (Hshut & Hq & Htype & Hsink & Hpp & Hdxgi).
  destruct c; cbn [call] in Hcall.
  - injection Hcall as Hcall.
    destruct (SetCurrentMediaType_succeeds_or_fails pMediaType this)
      as [(mediaType & g & _ & Hlive & _)|[_ Hsame]]; [congruence|].
    rewrite Hcall in Hsame. cbn in Hsame. subst this'. exact Hinv.
  - destruct (Start_result _ _ _ _ Hcall)
      as [(_ & _ & ->)|(_ & _ & [(_ & ->)|(Hlive & _)])];
      [exact Hinv|exact Hinv|congruence].
  - injection Hcall as Hcall.
    destruct (lifecycle_result Restart OpRestart State_Started this (fun _ => eq_refl))
      as [[_ Hr]|[_ Hr]]; rewrite Hr in Hcall; injection Hcall as _ <-; exact Hinv.
  - injection Hcall as Hcall.
    destruct (lifecycle_result Pause OpPause State_Paused this (fun _ => eq_refl))
      as [[_ Hr]|[_ Hr]]; rewrite Hr in Hcall; injection Hcall as _ <-; exact Hinv.
  - injection Hcall as Hcall.
    destruct (lifecycle_result Stop OpStop State_Stopped this (fun _ => eq_refl))
      as [[_ Hr]|[_ Hr]]; rewrite Hr in Hcall; injection Hcall as _ <-; exact Hinv.
  - injection Hcall as _ <-. exact Hinv.
  - rewrite (ProcessSample_result _ _ _ _ Hcall). exact Hinv.
  - unfold RequestSamples in Hcall.
    rewrite (RequestSamples_while_shutdown this Hshut) in Hcall.
    cbn in Hcall. injection Hcall as _ <-. exact Hinv.
  - injection Hcall as _ <-. unfold stays_shut. cbn. repeat split; assumption.
Qed.

Lemma run_stays_shut (calls : list Call) : forall (this0 this this' : t),
  stays_shut this0 this ->
  run calls this = Ret this' ->
  stays_shut this0 this'.
Proof.
  induction calls as [|c rest IH]; intros this0 this this' Hinv Hrun.
  - injection Hrun as <-. exact Hinv.
  - cbn [run] in Hrun.
    destruct (call c this) as [[hr this1]|] eqn:Hcall; [|discriminate].
    cbn in Hrun. apply (IH this0 this1 this'); [|exact Hrun].
    exact (call_stays_shut c this0 this hr this1 Hinv Hcall).
Qed.

(** Shutdown is final.  Whatever calls follow a Shutdown, the sink stays
    shut down: the flag is never cleared, the event queue and the parent
    sink are never taken again, no media type is ever held again, and
    the bytes per pixel and the display format are never written
    again. *)
Theorem Shutdown_is_final (calls : list Call) (this0 this' : t) :
  run calls (snd (Shutdown this0)) = Ret this' ->
  m_IsShutdown this' = true
  /\ m_pEventQueue this' = None
  /\ m_pCurrentType this' = None
  /\ m_pSink this' = false
  /\ m_imageBytesPP this' = m_imageBytesPP this0
  /\ m_dxgiFormat this' = m_dxgiFormat this0.
Proof.
  intros Hrun.
  apply (run_stays_shut calls this0 (snd (Shutdown this0)) this'); [|exact Hrun].
  unfold stays_shut. cbn. repeat split.
Qed.

Lemma Shutdown_is_final_witness :
  run paced_calls (snd (Shutdown startedSink))
  = Ret (set_scheduledWorkItems 6
           (set_m_count 4 (set_m_cOutstandingSampleRequests 4294967292
              (set_m_state State_Started shutSink))))
  /\ m_IsShutdown (set_scheduledWorkItems 6
           (set_m_count 4 (set_m_cOutstandingSampleRequests 4294967292
              (set_m_state State_Started shutSink)))) = true.
Proof.
  assert (Hrun : run paced_calls (snd (Shutdown startedSink))
                 = Ret (set_scheduledWorkItems 6
                          (set_m_count 4 (set_m_cOutstandingSampleRequests 4294967292
                             (set_m_state State_Started shutSink)))))
    by (vm_compute; reflexivity).
  split; [exact Hrun|].
  exact (proj1 (Shutdown_is_final paced_calls startedSink _ Hrun)).
Defined.

(** ** The tick of the request loop *)

(** A tick on a live sink tops the counter up to the threshold: with [c]
    requests outstanding it queues exactly [3 - c] request-sample
    events (none when [c] is 3 or more) and leaves the counter at the
    larger of [c] and 3; a tick that follows at once requests nothing
    more.  Both ticks return [S_OK] and schedule their successor. *)
Theorem tick_tops_up_to_threshold (this : t) (q : list MFEvent) :
  m_IsShutdown this = false ->
  m_pEventQueue this = Some q ->
  let c := m_cOutstandingSampleRequests this in
  let ticked :=
    set_scheduledWorkItems (S (scheduledWorkItems this))
      (set_m_cOutstandingSampleRequests (N.max c SAMPLE_QUEUE_HIWATER_THRESHOLD)
         (set_m_pEventQueue
            (Some (q ++ repeat RequestSampleEvent
                          (N.to_nat (SAMPLE_QUEUE_HIWATER_THRESHOLD - c))))
            this)) in
  RequestSamples this = Ret (S_OK, ticked)
  /\ RequestSamples ticked
     = Ret (S_OK, set_scheduledWorkItems (S (S (scheduledWorkItems this))) ticked).
Proof.
  intros Hlive Hq c ticked. split.
  - unfold RequestSamples.
    destruct (c <? SAMPLE_QUEUE_HIWATER_THRESHOLD) eqn:Hlt.
    + apply N.ltb_lt in Hlt.
      rewrite (RequestSamples_while_live
                 (N.to_nat (SAMPLE_QUEUE_HIWATER_THRESHOLD - c)) this q Hlive Hq)
        by (subst c; lia).
      cbn. subst ticked. rewrite N.max_r by lia. reflexivity.
    + rewrite RequestSamples_while_unfold. unfold NeedMoreSamples. fold c.
      rewrite Hlt. apply N.ltb_ge in Hlt. cbn. subst ticked.
      rewrite N.max_l by exact Hlt.
      replace (N.to_nat (SAMPLE_QUEUE_HIWATER_THRESHOLD - c)) with 0%nat by lia.
      subst c. destruct this; cbn in *; subst. rewrite app_nil_r. reflexivity.
  - unfold RequestSamples. rewrite RequestSamples_while_unfold.
    unfold NeedMoreSamples. subst ticked. cbn.
    replace (N.max c SAMPLE_QUEUE_HIWATER_THRESHOLD <? SAMPLE_QUEUE_HIWATER_THRESHOLD)
      with false by (symmetry; apply N.ltb_ge; lia).
    reflexivity.
Qed.

Lemma tick_tops_up_to_threshold_witness :
  m_IsShutdown pacedSink = false
  /\ m_pEventQueue pacedSink <> None
  /\ m_cOutstandingSampleRequests pacedSink = 2
  /\ exists q ticked,
       m_pEventQueue pacedSink = Some q
       /\ RequestSamples pacedSink = Ret (S_OK, ticked)
       /\ m_pEventQueue ticked = Some (q ++ [RequestSampleEvent])
       /\ m_cOutstandingSampleRequests ticked = 3.
Proof.
  split; [reflexivity|]. split; [discriminate|]. split; [reflexivity|].
  destruct (m_pEventQueue pacedSink) as [q|] eqn:Hq; [|discriminate Hq].
  pose proof (tick_tops_up_to_threshold pacedSink q eq_refl Hq) as [Htick _].
  eexists q, _. split; [reflexivity|]. split; [exact Htick|].
  split; reflexivity.
Defined.

Lemma run_ProcessSamples (samples : list IMFSample) : forall (this : t),
  N.of_nat (length samples) <= m_cOutstandingSampleRequests this ->
  m_cOutstandingSampleRequests this <= SAMPLE_QUEUE_HIWATER_THRESHOLD ->
  run (map (fun sample => Call_ProcessSample (Some sample)) samples) this
  = Ret (set_m_cOutstandingSampleRequests
           (m_cOutstandingSampleRequests this - N.of_nat (length samples))
           (set_m_count (Nat.iter (length samples) INT_inc (m_count this)) this)).
Proof.
  induction samples as [|sample rest IH]; intros this Hk Hc.
  - cbn. destruct this; cbn. rewrite N.sub_0_r. reflexivity.
  - cbn [map run call].
    change (length (sample :: rest)) with (S (length rest)) in *.
    rewrite Nat2N.inj_succ in *. rewrite Nat.iter_succ_r.
    destruct (ProcessSample (Some sample) this) as [[hr this1]|] eqn:Hp.
    + pose proof (ProcessSample_result _ _ _ _ Hp) as ->. cbn [bind].
      rewrite DWORD_dec_small by lia.
      rewrite IH by (cbn; lia). cbn.
      replace (m_cOutstandingSampleRequests this - N.succ (N.of_nat (length rest)))
        with (m_cOutstandingSampleRequests this - 1 - N.of_nat (length rest)) by lia.
      destruct this; reflexivity.
    + unfold ProcessSample in Hp. revert Hp. case_all; discriminate.
Qed.

(** Samples are replaced one for one.  On a live sink with the counter
    at the threshold, after [k <= 3] samples are processed the next tick
    queues exactly [k] request-sample events and brings the counter back
    to the threshold; [m_count] has been counted up [k] times, as the
    [int] it is. *)
Theorem tick_replaces_processed_samples (samples : list IMFSample) (this : t)
    (q : list MFEvent) :
  m_IsShutdown this = false ->
  m_pEventQueue this = Some q ->
  m_cOutstandingSampleRequests this = SAMPLE_QUEUE_HIWATER_THRESHOLD ->
  (length samples <= 3)%nat ->
  exists this',
    run (map (fun sample => Call_ProcessSample (Some sample)) samples
         ++ [Call_RequestSamples]) this = Ret this'
    /\ m_cOutstandingSampleRequests this' = SAMPLE_QUEUE_HIWATER_THRESHOLD
    /\ m_pEventQueue this' = Some (q ++ repeat RequestSampleEvent (length samples))
    /\ m_count this' = Nat.iter (length samples) INT_inc (m_count this).
Proof.
  intros Hlive Hq Hc Hk.
  assert (Hrun_app : forall l1 l2 s s1,
            run l1 s = Ret s1 -> run (l1 ++ l2) s = run l2 s1).
  { induction l1 as [|c l1 IH]; intros l2 s s1 H.
    - injection H as <-. reflexivity.
    - cbn [run app] in *. destruct (call c s) as [[hr s2]|]; [|discriminate].
      cbn in *. apply IH. exact H. }
  rewrite (Hrun_app _ _ _ _ (run_ProcessSamples samples this
                               ltac:(rewrite Hc; unfold SAMPLE_QUEUE_HIWATER_THRESHOLD; lia)
                               ltac:(rewrite Hc; lia))).
  cbn [run call]. unfold RequestSamples.
  rewrite (RequestSamples_while_live (length samples) _ q); cbn.
  - eexists. split; [reflexivity|]. cbn. repeat split.
  - exact Hlive.
  - exact Hq.
  - rewrite Hc. unfold SAMPLE_QUEUE_HIWATER_THRESHOLD in *. lia.
Qed.

Lemma tick_replaces_processed_samples_witness :
  exists ticked this',
    RequestSamples startedSink = Ret (S_OK, ticked)
    /\ m_IsShutdown ticked = false
    /\ m_pEventQueue ticked
       = Some [StartedEvent; RequestSampleEvent; RequestSampleEvent; RequestSampleEvent]
    /\ m_cOutstandingSampleRequests ticked = SAMPLE_QUEUE_HIWATER_THRESHOLD
    /\ (length [oneBufferSample; oneBufferSample] <= 3)%nat
    /\ run (map (fun sample => Call_ProcessSample (Some sample))
              [oneBufferSample; oneBufferSample] ++ [Call_RequestSamples]) ticked
       = Ret this'
    /\ m_cOutstandingSampleRequests this' = SAMPLE_QUEUE_HIWATER_THRESHOLD
    /\ m_pEventQueue this'
       = Some ([StartedEvent; RequestSampleEvent; RequestSampleEvent; RequestSampleEvent]
               ++ repeat RequestSampleEvent 2)
    /\ m_count this' = 2%Z.
Proof.
  destruct (RequestSamples startedSink) as [[hr ticked]|] eqn:Htick;
    [|discriminate Htick].
  assert (Hhr : hr = S_OK) by (vm_compute in Htick; congruence).
  assert (Hlive : m_IsShutdown ticked = false)
    by (vm_compute in Htick; injection Htick as _ <-; reflexivity).
  assert (Hq : m_pEventQueue ticked
               = Some [StartedEvent; RequestSampleEvent; RequestSampleEvent;
                       RequestSampleEvent])
    by (vm_compute in Htick; injection Htick as _ <-; reflexivity).
  assert (Hc : m_cOutstandingSampleRequests ticked = SAMPLE_QUEUE_HIWATER_THRESHOLD)
    by (vm_compute in Htick; injection Htick as _ <-; reflexivity).
  assert (Hk : (length [oneBufferSample; oneBufferSample] <= 3)%nat) by (cbn; lia).
  assert (Hm : m_count ticked = 0%Z)
    by (vm_compute in Htick; injection Htick as _ <-; reflexivity).
  destruct (tick_replaces_processed_samples [oneBufferSample; oneBufferSample]
              ticked _ Hlive Hq Hc Hk) as (this' & Hrun & Hc' & Hq' & Hm').
  exists ticked, this'. subst hr.
  do 7 (split; [assumption || reflexivity|]). split; [exact Hq'|].
  rewrite Hm', Hm. reflexivity.
Defined.

(** ** Scheduled work items *)

Lemma call_scheduledWorkItems (c : Call) (this : t) (hr : HRESULT) (this' : t) :
  call c this = Ret (hr, this') ->
  scheduledWorkItems this'
  = (scheduledWorkItems this
     + (if is_tick c then 1 else 0)
     + (if is_start c && ValidStateMatrix_at (m_state this) OpStart then 1 else 0))%nat.
Proof.
  intros Hcall. destruct c; cbn [call is_tick is_start andb] in *.
  - injection Hcall as Hcall.
    destruct (SetCurrentMediaType_succeeds_or_fails pMediaType this)
      as [(mediaType & g & -> & Hlive & Hsub & Hin)|[_ Hsame]].
    + rewrite (SetCurrentMediaType_supported mediaType g this Hlive Hsub Hin) in Hcall.
      destruct (_ && _); cbn in Hcall; injection Hcall as _ <-; cbn; lia.
    + rewrite Hcall in Hsame. cbn in Hsame. subst this'. lia.
  - destruct (Start_result _ _ _ _ Hcall)
      as [(Hm & _ & ->)|(Hm & _ & [(_ & ->)|(_ & q & _ & ->)])];
      rewrite Hm; cbn; lia.
  - injection Hcall as Hcall.
    destruct (lifecycle_result Restart OpRestart State_Started this (fun _ => eq_refl))
      as [[_ Hr]|[_ Hr]]; rewrite Hr in Hcall; injection Hcall as _ <-; cbn; lia.
  - injection Hcall as Hcall.
    destruct (lifecycle_result Pause OpPause State_Paused this (fun _ => eq_refl))
      as [[_ Hr]|[_ Hr]]; rewrite Hr in Hcall; injection Hcall as _ <-; cbn; lia.
  - injection Hcall as Hcall.
    destruct (lifecycle_result Stop OpStop State_Stopped this (fun _ => eq_refl))
      as [[_ Hr]|[_ Hr]]; rewrite Hr in Hcall; injection Hcall as _ <-; cbn; lia.
  - injection Hcall as _ <-. lia.
  - rewrite (ProcessSample_result _ _ _ _ Hcall). cbn. lia.
  - unfold RequestSamples in Hcall.
    destruct (RequestSamples_while this) as [this1|] eqn:Hloop; [|discriminate].
    cbn in Hcall. injection Hcall as _ <-.
    destruct (RequestSamples_while_result _ _ Hloop) as [->|(_ & _ & q & _ & ->)];
      cbn; lia.
  - injection Hcall as _ <-. cbn. lia.
Qed.

Lemma run_results_run (calls : list Call) : forall (this : t),
  run calls this = ' (_, this') <- run_results calls this ;; Ret this'.
Proof.
  induction calls as [|c rest IH]; intros this; cbn [run run_results]; [reflexivity|].
  destruct (call c this) as [[hr this1]|]; [|reflexivity].
  cbn [bind]. rewrite IH.
  destruct (run_results rest this1) as [[hrs this2]|]; reflexivity.
Qed.

Lemma run_scheduledWorkItems (calls : list Call) : forall (this this' : t),
  run calls this = Ret this' ->
  scheduledWorkItems this'
  = (scheduledWorkItems this + length (filter is_tick calls)
     + accepted_starts calls this)%nat.
Proof.
  induction calls as [|c rest IH]; intros this this' Hrun.
  - injection Hrun as <-. cbn. lia.
  - cbn [run] in Hrun. cbn [accepted_starts].
    destruct (call c this) as [[hr this1]|] eqn:Hcall; [|discriminate].
    cbn in Hrun. rewrite (IH this1 this' Hrun).
    rewrite (call_scheduledWorkItems c this hr this1 Hcall).
    cbn [filter]. destruct (is_tick c); cbn [length]; lia.
Qed.

Lemma accepted_starts_le (calls : list Call) : forall (this : t),
  (accepted_starts calls this <= length (filter is_start calls))%nat.
Proof.
  induction calls as [|c rest IH]; intros this; cbn [accepted_starts filter].
  - cbn. lia.
  - assert (Hrest : (match call c this with
                     | Ret (_, this') => accepted_starts rest this'
                     | AccessViolation => 0
                     end <= length (filter is_start rest))%nat).
    { destruct (call c this) as [[hr this1]|]; [apply IH|lia]. }
    destruct (is_start c); cbn [andb length];
      [destruct (ValidStateMatrix_at (m_state this) OpStart)|]; lia.
Qed.

(** Work items are scheduled and never cancelled.  Every tick schedules
    exactly one successor, also on a shut-down sink; every Start the
    matrix accepts schedules one more, and no other call schedules or
    takes one away: over an execution the number scheduled grows by
    exactly the number of ticks plus the number of accepted Starts,
    which is at most the number of Starts.  A Start on a started sink is
    accepted, and so opens a second chain of ticks. *)
Theorem work_items_only_accumulate (calls : list Call) (this this' : t) :
  run calls this = Ret this' ->
  scheduledWorkItems this'
  = (scheduledWorkItems this + length (filter is_tick calls)
     + accepted_starts calls this)%nat
  /\ (accepted_starts calls this <= length (filter is_start calls))%nat
  /\ (forall (start : MFTIME) (started : t) (hr : HRESULT) (again : t),
        m_state started = State_Started ->
        Start start started = Ret (hr, again) ->
        hr = S_OK
        /\ scheduledWorkItems again = S (scheduledWorkItems started)).
Proof.
  intros Hrun. split; [exact (run_scheduledWorkItems calls this this' Hrun)|].
  split; [exact (accepted_starts_le calls this)|].
  intros start started hr again Hstate HStart.
  destruct (Start_result _ _ _ _ HStart)
    as [(Hm & _ & _)|(_ & -> & [(_ & ->)|(_ & q & _ & ->)])].
  - rewrite Hstate in Hm. discriminate Hm.
  - split; reflexivity.
  - split; reflexivity.
Qed.

Lemma work_items_only_accumulate_witness :
  run paced_calls new = Ret pacedSink
  /\ scheduledWorkItems new = 0%nat
  /\ length (filter is_tick paced_calls) = 3%nat
  /\ accepted_starts paced_calls new = 2%nat
  /\ scheduledWorkItems pacedSink = 5%nat.
Proof.
  assert (Hrun : run paced_calls new = Ret pacedSink) by (vm_compute; reflexivity).
  split; [exact Hrun|]. do 3 (split; [reflexivity|]).
  destruct (work_items_only_accumulate paced_calls new pacedSink Hrun) as [Hcount _].
  exact Hcount.
Defined.

(** ** Requests, samples and the counter *)

Lemma count_requests_app (q l : list MFEvent) :
  count_requests (q ++ l) = (count_requests q + count_requests l)%nat.
Proof. unfold count_requests. rewrite filter_app, length_app. reflexivity. Qed.

Lemma count_requests_repeat (n : nat) :
  count_requests (repeat RequestSampleEvent n) = n.
Proof.
  unfold count_requests. induction n as [|n IH]; cbn; [reflexivity|].
  rewrite IH. reflexivity.
Qed.

Lemma DWORD_dec_cases (n : DWORD) :
  n < DWORD_modulus ->
  DWORD_dec n < DWORD_modulus
  /\ ((n = 0 /\ DWORD_dec n = DWORD_modulus - 1) \/ (0 < n /\ DWORD_dec n = n - 1)).
Proof.
  intros Hn. unfold DWORD_dec. split.
  - apply N.mod_lt. discriminate.
  - destruct (N.eq_dec n 0) as [->|Hpos].
    + left. split; reflexivity.
    + right. split; [lia|].
      replace (n + (DWORD_modulus - 1)) with ((n - 1) + 1 * DWORD_modulus)
        by (unfold DWORD_modulus in *; change (2 ^ 32) with 4294967296 in *; lia).
      rewrite N.Div0.mod_add. apply N.mod_small. lia.
Qed.

Lemma INT_inc_below_INT_MAX (n : Z) :
  (INT_MIN <= n < INT_MAX)%Z -> INT_inc n = (n + 1)%Z.
Proof.
  unfold INT_MIN, INT_MAX, INT_inc, INT_wrap. intros Hn.
  change (2 ^ 31)%Z with 2147483648%Z. change (2 ^ 32)%Z with 4294967296%Z.
  rewrite Z.mod_small by lia. lia.
Qed.

Lemma INT_inc_INT_MAX : INT_inc INT_MAX = INT_MIN.
Proof. reflexivity. Qed.

Lemma INT_inc_congruent (n : Z) :
  exists j : Z, INT_inc n = (n + 1 + j * 2 ^ 32)%Z.
Proof.
  unfold INT_inc, INT_wrap. exists (- ((n + 1 + 2 ^ 31) / 2 ^ 32))%Z.
  change (2 ^ 31)%Z with 2147483648%Z. change (2 ^ 32)%Z with 4294967296%Z.
  pose proof (Z.div_mod (n + 1 + 2147483648) 4294967296 ltac:(lia)). lia.
Qed.

Lemma call_requests_balance (c : Call) (this : t) (hr : HRESULT) (this' : t) :
  requests_balance this ->
  call c this = Ret (hr, this') ->
  requests_balance this'.
Proof.
  intros [Hrange Hbal] Hcall. destruct c; cbn [call] in Hcall.
  - injection Hcall as Hcall.
    destruct (SetCurrentMediaType_succeeds_or_fails pMediaType this)
      as [(mediaType & g & -> & Hlive & Hsub & Hin)|[_ Hsame]].
    + rewrite (SetCurrentMediaType_supported mediaType g this Hlive Hsub Hin) in Hcall.
      destruct (_ && _); cbn in Hcall; injection Hcall as _ <-;
        (split; [exact Hrange|exact Hbal]).
    + rewrite Hcall in Hsame. cbn in Hsame. subst this'. split; assumption.
  - destruct (Start_result _ _ _ _ Hcall)
      as [(_ & _ & ->)|(_ & _ & [(_ & ->)|(_ & q & Hq & ->)])].
    + split; assumption.
    + split; assumption.
    + split; [exact Hrange|]. cbn. intros q' [= <-].
      destruct (Hbal q Hq) as [k Hk]. exists k.
      rewrite count_requests_app. cbn. rewrite Nat.add_0_r. exact Hk.
  - injection Hcall as Hcall.
    destruct (lifecycle_result Restart OpRestart State_Started this (fun _ => eq_refl))
      as [[_ Hr]|[_ Hr]]; rewrite Hr in Hcall; injection Hcall as _ <-;
      split; assumption.
  - injection Hcall as Hcall.
    destruct (lifecycle_result Pause OpPause State_Paused this (fun _ => eq_refl))
      as [[_ Hr]|[_ Hr]]; rewrite Hr in Hcall; injection Hcall as _ <-;
      split; assumption.
  - injection Hcall as Hcall.
    destruct (lifecycle_result Stop OpStop State_Stopped this (fun _ => eq_refl))
      as [[_ Hr]|[_ Hr]]; rewrite Hr in Hcall; injection Hcall as _ <-;
      split; assumption.
  - injection Hcall as _ <-. split; assumption.
  - rewrite (ProcessSample_result _ _ _ _ Hcall).
    destruct (DWORD_dec_cases _ Hrange) as [Hrange' Hcases].
    destruct (INT_inc_congruent (m_count this)) as [j Hj]. rewrite Hj.
    split; [exact Hrange'|]. cbn. intros q Hq.
    destruct (Hbal q Hq) as [k Hk].
    unfold DWORD_modulus in Hcases. change (2 ^ 32) with 4294967296 in Hcases.
    change (2 ^ 32)%Z with 4294967296%Z in *.
    destruct Hcases as [[H0 ->]|[Hpos ->]].
    + exists (k + j + 1)%Z. lia.
    + exists (k + j)%Z. lia.
  - unfold RequestSamples in Hcall.
    destruct (RequestSamples_while this) as [this1|] eqn:Hloop; [|discriminate].
    cbn in Hcall. injection Hcall as _ <-.
    destruct (RequestSamples_while_result _ _ Hloop) as [->|(_ & Hlt & q & Hq & ->)].
    + split; assumption.
    + split; [reflexivity|].
      set (n := N.to_nat (SAMPLE_QUEUE_HIWATER_THRESHOLD
                          - m_cOutstandingSampleRequests this)) in *.
      assert (Hn : Z.of_nat n = (3 - Z.of_N (m_cOutstandingSampleRequests this))%Z)
        by (subst n; unfold SAMPLE_QUEUE_HIWATER_THRESHOLD in *; lia).
      clearbody n. cbn. intros q' [= <-].
      destruct (Hbal q Hq) as [k Hk]. exists k.
      rewrite count_requests_app, count_requests_repeat.
      change (2 ^ 32)%Z with 4294967296%Z in *. lia.
  - injection Hcall as _ <-. split; [exact Hrange|]. cbn. discriminate.
Qed.

Lemma run_requests_balance (calls : list Call) : forall (this this' : t),
  requests_balance this ->
  run calls this = Ret this' ->
  requests_balance this'.
Proof.
  induction calls as [|c rest IH]; intros this this' Hinv Hrun.
  - injection Hrun as <-. exact Hinv.
  - cbn [run] in Hrun.
    destruct (call c this) as [[hr this1]|] eqn:Hcall; [|discriminate].
    cbn in Hrun. apply (IH this1 this'); [|exact Hrun].
    exact (call_requests_balance c this hr this1 Hinv Hcall).
Qed.

Lemma run_m_count (calls : list Call) : forall (this this' : t),
  run calls this = Ret this' ->
  exists j : Z,
    m_count this'
    = (m_count this + Z.of_nat (length (filter is_sample calls)) + j * 2 ^ 32)%Z.
Proof.
  induction calls as [|c rest IH]; intros this this' Hrun.
  - injection Hrun as <-. exists 0%Z. cbn. lia.
  - cbn [run] in Hrun.
    destruct (call c this) as [[hr this1]|] eqn:Hcall; [|discriminate].
    cbn in Hrun. destruct (IH this1 this' Hrun) as [j1 Hrest]. cbn [filter].
    assert (Hstep : exists j : Z,
              m_count this1
              = (m_count this + (if is_sample c then 1 else 0) + j * 2 ^ 32)%Z).
    { destruct (INT_inc_congruent (m_count this)) as [j Hj].
      exists (if is_sample c then j else 0)%Z. clear Hrest.
      change (2 ^ 32)%Z with 4294967296%Z in *.
      destruct c; cbn [call is_sample] in *.
      - injection Hcall as Hcall.
        destruct (SetCurrentMediaType_succeeds_or_fails pMediaType this)
          as [(mediaType & g & -> & Hlive & Hsub & Hin)|[_ Hsame]].
        + rewrite (SetCurrentMediaType_supported mediaType g this Hlive Hsub Hin) in Hcall.
          destruct (_ && _); cbn in Hcall; injection Hcall as _ <-; cbn; lia.
        + rewrite Hcall in Hsame. cbn in Hsame. subst this1. lia.
      - destruct (Start_result _ _ _ _ Hcall)
          as [(_ & _ & ->)|(_ & _ & [(_ & ->)|(_ & q & _ & ->)])]; cbn; lia.
      - injection Hcall as Hcall.
        destruct (lifecycle_result Restart OpRestart State_Started this (fun _ => eq_refl))
          as [[_ Hr]|[_ Hr]]; rewrite Hr in Hcall; injection Hcall as _ <-; cbn; lia.
      - injection Hcall as Hcall.
        destruct (lifecycle_result Pause OpPause State_Paused this (fun _ => eq_refl))
          as [[_ Hr]|[_ Hr]]; rewrite Hr in Hcall; injection Hcall as _ <-; cbn; lia.
      - injection Hcall as Hcall.
        destruct (lifecycle_result Stop OpStop State_Stopped this (fun _ => eq_refl))
          as [[_ Hr]|[_ Hr]]; rewrite Hr in Hcall; injection Hcall as _ <-; cbn; lia.
      - injection Hcall as _ <-. lia.
      - rewrite (ProcessSample_result _ _ _ _ Hcall). cbn. exact Hj.
      - unfold RequestSamples in Hcall.
        destruct (RequestSamples_while this) as [this2|] eqn:Hloop; [|discriminate].
        cbn in Hcall. injection Hcall as _ <-.
        destruct (RequestSamples_while_result _ _ Hloop) as [->|(_ & _ & q & _ & ->)];
          cbn; lia.
      - injection Hcall as _ <-. cbn. lia. }
    destruct Hstep as [j Hstep]. exists (j1 + j)%Z. rewrite Hrest, Hstep.
    change (2 ^ 32)%Z with 4294967296%Z.
    destruct (is_sample c); cbn [length]; lia.
Qed.

(** Requests and samples balance.  Along every execution from a new
    sink, as long as the queue is held, the counter of outstanding
    requests equals the number of request-sample events the sink has
    queued less the number of ProcessSample calls, modulo [2^32]: each
    increment of the counter queues exactly one request, each sample
    takes exactly one off, in every state and also for a sample that
    fails. *)
Theorem outstanding_requests_balance (calls : list Call) (this' : t)
    (q : list MFEvent) :
  run calls new = Ret this' ->
  m_pEventQueue this' = Some q ->
  Z.of_N (m_cOutstandingSampleRequests this')
  = ((Z.of_nat (count_requests q) - Z.of_nat (length (filter is_sample calls)))
     mod 2 ^ 32)%Z.
Proof.
  intros Hrun Hq.
  assert (Hinv : requests_balance this').
  { apply (run_requests_balance calls new this'); [|exact Hrun].
    split; [reflexivity|]. cbn. intros q0 [= <-]. exists 0%Z. reflexivity. }
  destruct Hinv as [Hrange Hbal]. destruct (Hbal q Hq) as [k Hk].
  destruct (run_m_count calls new this' Hrun) as [j Hj].
  rewrite Hj in Hk. cbn in Hk.
  apply (Z.mod_unique _ _ (j - k)%Z).
  - left. unfold DWORD_modulus in Hrange. change (2 ^ 32)%N with 4294967296%N in Hrange.
    change (2 ^ 32)%Z with 4294967296%Z. lia.
  - change (2 ^ 32)%Z with 4294967296%Z in *. lia.
Qed.

Lemma outstanding_requests_balance_witness :
  run overdrawn_calls new
  = Ret (set_m_count 4 (set_m_cOutstandingSampleRequests 4294967295
           (set_scheduledWorkItems 2
              (set_m_cOutstandingSampleRequests 3
                 (set_m_pEventQueue
                    (Some [StartedEvent; RequestSampleEvent; RequestSampleEvent;
                           RequestSampleEvent]) startedSink)))))
  /\ (Z.of_N 4294967295 = ((3 - 4) mod 2 ^ 32))%Z.
Proof.
  assert (Hrun : run overdrawn_calls new
                 = Ret (set_m_count 4 (set_m_cOutstandingSampleRequests 4294967295
                          (set_scheduledWorkItems 2
                             (set_m_cOutstandingSampleRequests 3
                                (set_m_pEventQueue
                                   (Some [StartedEvent; RequestSampleEvent;
                                          RequestSampleEvent; RequestSampleEvent])
                                   startedSink))))))
    by (vm_compute; reflexivity).
  split; [exact Hrun|].
  exact (outstanding_requests_balance overdrawn_calls _ _ Hrun eq_refl).
Defined.

(** * Further properties of the media sink *)

Lemma notify_live (n : ClockNotification) (sink : CustomVideoRenderer.t) (stream : t) :
  CustomVideoRenderer.m_IsShutdown sink = false ->
  CustomVideoRenderer.m_pStream sink = Some stream ->
  notify n sink
  = ' (hr, stream') <- call (forwarded_as n) stream ;;
    Ret (hr, with_stream stream' sink).
Proof.
  intros Hlive Hstream.
  destruct n; cbn [notify forwarded_as call];
    unfold CustomVideoRenderer.OnClockStart, CustomVideoRenderer.OnClockPause,
      CustomVideoRenderer.OnClockStop, CustomVideoRenderer.OnClockRestart,
      CustomVideoRenderer.CheckShutdown, CustomVideoRenderer.on_stream;
    unfold with_stream; rewrite Hlive; cbn; rewrite Hstream; cbn; rewrite ?Hlive.
  - destruct (Start llClockStartOffset stream) as [[hr stream']|]; reflexivity.
  - destruct (Pause stream) as [hr stream']. reflexivity.
  - destruct (Stop stream) as [hr stream']. reflexivity.
  - destruct (Restart stream) as [hr stream']. reflexivity.
Qed.

Lemma sink_run_results_sink_run (calls : list SinkCall) :
  forall (sink : CustomVideoRenderer.t),
  sink_run calls sink = ' (_, sink') <- sink_run_results calls sink ;; Ret sink'.
Proof.
  induction calls as [|c rest IH]; intros sink; cbn [sink_run sink_run_results];
    [reflexivity|].
  destruct (sink_call c sink) as [[hr sink1]|]; [|reflexivity].
  cbn [bind]. rewrite IH.
  destruct (sink_run_results rest sink1) as [[hrs sink2]|]; reflexivity.
Qed.

(** The media sink forwards the notifications of the clock unchanged.
    On a live renderer a sequence of clock notifications does to the
    stream sink exactly what the corresponding Start, Pause, Stop and
    Restart calls do when made on it directly: each notification returns
    the result of its call, a fault of the call is a fault of the
    notification, the stream sink ends as the calls leave it and nothing
    else of the renderer changes; the Flush that precedes Start in
    OnClockStart has no effect. *)
Theorem clock_notifications_reach_the_stream (notes : list ClockNotification)
    (sink : CustomVideoRenderer.t) (stream : t) :
  CustomVideoRenderer.m_IsShutdown sink = false ->
  CustomVideoRenderer.m_pStream sink = Some stream ->
  sink_run_results (map Sink_Notify notes) sink
  = ' (hrs, stream') <- run_results (map forwarded_as notes) stream ;;
    Ret (hrs, with_stream stream' sink).
Proof.
  revert sink stream. induction notes as [|n rest IH]; intros sink stream Hlive Hstream.
  - cbn. destruct sink; cbn in *; subst. reflexivity.
  - cbn [map sink_run_results run_results sink_call].
    rewrite (notify_live n sink stream Hlive Hstream).
    destruct (call (forwarded_as n) stream) as [[hr stream1]|]; [|reflexivity].
    cbn [bind]. rewrite (IH (with_stream stream1 sink) stream1 Hlive eq_refl).
    destruct (run_results (map forwarded_as rest) stream1) as [[hrs stream2]|];
      reflexivity.
Qed.

Lemma clock_notifications_reach_the_stream_witness :
  CustomVideoRenderer.m_IsShutdown
    (with_stream readySink CustomVideoRenderer.CreateInstance) = false
  /\ CustomVideoRenderer.m_pStream
       (with_stream readySink CustomVideoRenderer.CreateInstance) = Some readySink
  /\ sink_run_results
       (map Sink_Notify [Clock_Start PRESENTATION_CURRENT_POSITION; Clock_Pause;
                         Clock_Restart; Clock_Restart])
       (with_stream readySink CustomVideoRenderer.CreateInstance)
     = Ret ([S_OK; S_OK; S_OK; MF_E_INVALIDREQUEST],
            with_stream startedSink CustomVideoRenderer.CreateInstance).
Proof.
  split; [reflexivity|]. split; [reflexivity|].
  rewrite (clock_notifications_reach_the_stream
             [Clock_Start PRESENTATION_CURRENT_POSITION; Clock_Pause;
              Clock_Restart; Clock_Restart]
             (with_stream readySink CustomVideoRenderer.CreateInstance) readySink
             eq_refl eq_refl).
  reflexivity.
Defined.

Lemma sink_call_holds_stream (c : SinkCall) (sink : CustomVideoRenderer.t) :
  holds_stream sink ->
  exists hr sink',
    sink_call c sink = Ret (hr, sink')
    /\ holds_stream sink'
    /\ (CustomVideoRenderer.m_IsShutdown sink = true ->
        hr = MF_E_SHUTDOWN
        /\ CustomVideoRenderer.m_IsShutdown sink' = true)
    /\ (c = Sink_Shutdown ->
        CustomVideoRenderer.m_IsShutdown sink' = true
        /\ CustomVideoRenderer.m_pStream sink' = None).
Proof.
  intros Hheld. destruct c as [n|].
  - cbn [sink_call]. destruct (CustomVideoRenderer.m_IsShutdown sink) eqn:Hlive.
    + exists MF_E_SHUTDOWN, sink. split.
      * destruct n; cbn [notify];
          unfold CustomVideoRenderer.OnClockStart, CustomVideoRenderer.OnClockPause,
            CustomVideoRenderer.OnClockStop, CustomVideoRenderer.OnClockRestart,
            CustomVideoRenderer.CheckShutdown; rewrite Hlive; reflexivity.
      * split; [exact Hheld|]. split; [intros _; split; [reflexivity|exact Hlive]|].
        discriminate.
    + destruct (Hheld Hlive) as (stream & Hstream & Hq).
      rewrite (notify_live n sink stream Hlive Hstream).
      destruct (call_returns (forwarded_as n) stream Hq) as (hr & stream' & Hcall & Hq').
      { destruct n; reflexivity. }
      rewrite Hcall. cbn [bind]. exists hr, (with_stream stream' sink).
      split; [reflexivity|]. split.
      * intros _. exists stream'. split; [reflexivity|exact Hq'].
      * split; [discriminate|discriminate].
  - cbn. eexists _, _. split; [reflexivity|]. split.
    + intros H. cbn in H. discriminate.
    + split; [intros _; split; reflexivity|intros _; split; reflexivity].
Qed.

(** The media sink never dereferences a null stream pointer.  From a
    renderer that holds its stream while live (as CreateInstance leaves
    it), every sequence of clock notifications and Shutdown calls
    returns; and once a Shutdown is among them, the renderer ends shut
    down with its stream pointer released. *)
Theorem media_sink_calls_return (calls : list SinkCall) (sink : CustomVideoRenderer.t) :
  holds_stream sink ->
  exists sink',
    sink_run calls sink = Ret sink'
    /\ holds_stream sink'
    /\ (In Sink_Shutdown calls ->
        CustomVideoRenderer.m_IsShutdown sink' = true
        /\ CustomVideoRenderer.m_pStream sink' = None).
Proof.
  assert (Hshut : forall calls sink,
            holds_stream sink ->
            CustomVideoRenderer.m_IsShutdown sink = true ->
            exists sink',
              sink_run calls sink = Ret sink' /\ holds_stream sink'
              /\ CustomVideoRenderer.m_IsShutdown sink' = true
              /\ (CustomVideoRenderer.m_pStream sink = None ->
                  CustomVideoRenderer.m_pStream sink' = None)).
  { clear. induction calls as [|c rest IH]; intros sink Hheld Hdown.
    - exists sink. split; [reflexivity|]. split; [exact Hheld|].
      split; [exact Hdown|]. intros H; exact H.
    - destruct (sink_call_holds_stream c sink Hheld)
        as (hr & sink1 & Hcall & Hheld1 & Hafter & Hsd).
      destruct (Hafter Hdown) as [_ Hdown1].
      destruct (IH sink1 Hheld1 Hdown1) as (sink' & Hrun & Hheld' & Hdown' & Hnone).
      exists sink'. cbn [sink_run]. rewrite Hcall. cbn [bind].
      split; [exact Hrun|]. split; [exact Hheld'|]. split; [exact Hdown'|].
      intros Hn. apply Hnone. destruct c as [n|].
      + cbn [sink_call] in Hcall. revert Hcall.
        destruct n; cbn [notify];
          unfold CustomVideoRenderer.OnClockStart, CustomVideoRenderer.OnClockPause,
            CustomVideoRenderer.OnClockStop, CustomVideoRenderer.OnClockRestart,
            CustomVideoRenderer.CheckShutdown; rewrite Hdown; cbn;
          intros [= _ <-]; exact Hn.
      + exact (proj2 (Hsd eq_refl)). }
  revert sink. induction calls as [|c rest IH]; intros sink Hheld.
  - exists sink. split; [reflexivity|]. split; [exact Hheld|]. intros [].
  - destruct (sink_call_holds_stream c sink Hheld)
      as (hr & sink1 & Hcall & Hheld1 & _ & Hsd).
    cbn [sink_run]. rewrite Hcall. cbn [bind].
    destruct c as [n|].
    + destruct (IH sink1 Hheld1) as (sink' & Hrun & Hheld' & Hin).
      exists sink'. split; [exact Hrun|]. split; [exact Hheld'|].
      intros [Hc|Hc]; [discriminate Hc|exact (Hin Hc)].
    + destruct (Hsd eq_refl) as [Hdown1 Hnone1].
      destruct (Hshut rest sink1 Hheld1 Hdown1) as (sink' & Hrun & Hheld' & Hdown' & Hnone).
      exists sink'. split; [exact Hrun|]. split; [exact Hheld'|].
      intros _. split; [exact Hdown'|exact (Hnone Hnone1)].
Qed.

Lemma media_sink_calls_return_witness :
  holds_stream CustomVideoRenderer.CreateInstance
  /\ exists sink',
       sink_run [Sink_Notify Clock_Pause; Sink_Shutdown; Sink_Notify Clock_Stop]
         CustomVideoRenderer.CreateInstance = Ret sink'
       /\ CustomVideoRenderer.m_IsShutdown sink' = true
       /\ CustomVideoRenderer.m_pStream sink' = None.
Proof.
  assert (Hheld : holds_stream CustomVideoRenderer.CreateInstance).
  { intros _. exists new. split; [reflexivity|]. intros _. discriminate. }
  split; [exact Hheld|].
  destruct (media_sink_calls_return
              [Sink_Notify Clock_Pause; Sink_Shutdown; Sink_Notify Clock_Stop]
              CustomVideoRenderer.CreateInstance Hheld) as (sink' & Hrun & _ & Hin).
  exists sink'. split; [exact Hrun|]. apply Hin. right. left. reflexivity.
Defined.

(** * Reference counts *)

Lemma Release_at_deleted (n : nat) (o : Lifetime.Object) (h : Lifetime.objects) :
  Lifetime.deleted o h = true -> Lifetime.Release_at n o h = AccessViolation.
Proof. intros H. destruct n; cbn; rewrite H; reflexivity. Qed.

(** Below a destructor of the other object the depth does not matter. *)
Lemma Release_at_inner (n m : nat) (o : Lifetime.Object) (h : Lifetime.objects) :
  Lifetime.deleted (Lifetime.other o) h = true ->
  Lifetime.Release_at n o h = Lifetime.Release_at m o h.
Proof.
  intros Hother.
  assert (Hstep : forall k,
            Lifetime.Release_at k o h =
            if Lifetime.deleted o h then AccessViolation
            else
              let uCount := DWORD_dec (Lifetime.m_nRefCount o h) in
              let h1 := Lifetime.set_m_nRefCount o uCount h in
              if uCount =? 0 then
                if Lifetime.pointer o (Lifetime.set_deleted o true h1)
                then AccessViolation
                else Ret (uCount, Lifetime.set_deleted o true h1)
              else Ret (uCount, h1)).
  { intros k. destruct k; cbn [Lifetime.Release_at]; cbv zeta;
      destruct (Lifetime.deleted o h); try reflexivity;
      destruct (_ =? 0); try reflexivity;
      destruct (Lifetime.pointer o _); try reflexivity.
    rewrite Release_at_deleted; [reflexivity|].
    destruct o; cbn in *; exact Hother. }
  rewrite (Hstep n), (Hstep m). reflexivity.
Qed.

Lemma Release_at_S (n : nat) (o : Lifetime.Object) (h : Lifetime.objects) :
  Lifetime.Release_at (S n) o h =
  if Lifetime.deleted o h then AccessViolation
  else
    let uCount := DWORD_dec (Lifetime.m_nRefCount o h) in
    let h := Lifetime.set_m_nRefCount o uCount h in
    if uCount =? 0 then
      let h := Lifetime.set_deleted o true h in
      if Lifetime.pointer o h then
        ' (_, h) <- Lifetime.Release_at n (Lifetime.other o)
                      (Lifetime.set_pointer o false h) ;;
        Ret (uCount, h)
      else Ret (uCount, h)
    else Ret (uCount, h).
Proof. reflexivity. Qed.

(** Two levels of destructors are all that two objects need: a deeper
    bound gives the same result. *)
Lemma Release_at_depth (d : nat) (o : Lifetime.Object) (h : Lifetime.objects) :
  Lifetime.Release_at (2 + d) o h = Lifetime.Release_at 2 o h.
Proof.
  change (2 + d)%nat with (S (S d)).
  rewrite (Release_at_S (S d)), (Release_at_S 1). cbv zeta.
  destruct (Lifetime.deleted o h); [reflexivity|].
  destruct (_ =? 0); [|reflexivity].
  destruct (Lifetime.pointer o _); [|reflexivity].
  rewrite (Release_at_inner (S d) 1); [reflexivity|].
  destruct o; reflexivity.
Qed.

(** CreateInstance and the reference cycle.  CreateInstance succeeds
    exactly for the two interfaces the renderer's QueryInterface
    answers, IUnknown and IMFMediaSink, and then leaves the renderer
    with two references: the caller's and the one its stream sink took.
    For any other interface it returns [E_NOINTERFACE] and hands out
    nothing, yet the renderer is not deleted: the stream sink's
    reference keeps it, and the renderer keeps the stream sink. *)
Theorem CreateInstance_leaves_a_reference_cycle (iid : Lifetime.IID) :
  exists r,
    Lifetime.CreateInstance iid true
    = Ret (if Lifetime.answers Lifetime.TheRenderer iid then S_OK else E_NOINTERFACE,
           Lifetime.cycle r)
    /\ r = (if Lifetime.answers Lifetime.TheRenderer iid then 2 else 1).
Proof.
  destruct iid; eexists; (split; [vm_compute; reflexivity|reflexivity]).
Qed.

Lemma DWORD_inc_in_range (n : DWORD) :
  n + 1 < DWORD_modulus -> DWORD_inc n = n + 1.
Proof. intros H. unfold DWORD_inc. apply N.mod_small. exact H. Qed.

Lemma DWORD_dec_in_range (n : DWORD) :
  0 < n -> n < DWORD_modulus -> DWORD_dec n = n - 1.
Proof.
  intros Hpos Hn. destruct (DWORD_dec_cases n Hn) as [_ [[H0 _]|[_ H]]]; [lia|exact H].
Qed.

Lemma AddRef_cycle (r : DWORD) :
  r + 1 < DWORD_modulus ->
  Lifetime.AddRef Lifetime.TheRenderer (Lifetime.cycle r)
  = Ret (r + 1, Lifetime.cycle (r + 1)).
Proof.
  intros H. unfold Lifetime.AddRef. cbn.
  rewrite (DWORD_inc_in_range r H). reflexivity.
Qed.

Lemma Release_cycle (r : DWORD) :
  1 < r -> r < DWORD_modulus ->
  Lifetime.Release Lifetime.TheRenderer (Lifetime.cycle r)
  = Ret (r - 1, Lifetime.cycle (r - 1)).
Proof.
  intros H1 Hr. unfold Lifetime.Release. rewrite Release_at_S. cbn.
  rewrite (DWORD_dec_in_range r) by lia.
  replace (r - 1 =? 0) with false by (symmetry; apply N.eqb_neq; lia).
  reflexivity.
Qed.

Lemma Release_shut_down (r : DWORD) :
  1 < r -> r < DWORD_modulus ->
  Lifetime.Release Lifetime.TheRenderer (Lifetime.shut_down r)
  = Ret (r - 1, Lifetime.shut_down (r - 1)).
Proof.
  intros H1 Hr. unfold Lifetime.Release. rewrite Release_at_S. cbn.
  rewrite (DWORD_dec_in_range r) by lia.
  replace (r - 1 =? 0) with false by (symmetry; apply N.eqb_neq; lia).
  reflexivity.
Qed.

Lemma Shutdown_cycle (r : DWORD) :
  1 < r -> r < DWORD_modulus ->
  Lifetime.Shutdown (Lifetime.cycle r) = Ret (Lifetime.shut_down (r - 1)).
Proof.
  intros H1 Hr.
  unfold Lifetime.Shutdown, Lifetime.Stream_Shutdown, Lifetime.Reset, Lifetime.Release.
  cbn [Lifetime.deleted Lifetime.pointer Lifetime.cycle Lifetime.renderer_deleted
       Lifetime.renderer_m_pStream Lifetime.stream_deleted Lifetime.stream_m_pSink
       Lifetime.other Lifetime.set_pointer Lifetime.renderer_m_nRefCount
       Lifetime.stream_m_nRefCount].
  rewrite Release_at_S. cbn.
  rewrite (DWORD_dec_in_range r) by lia.
  replace (r - 1 =? 0) with false by (symmetry; apply N.eqb_neq; lia).
  reflexivity.
Qed.

Lemma AddRef_times_cycle (k : nat) : forall r : DWORD,
  r + N.of_nat k < DWORD_modulus ->
  Lifetime.AddRef_times k (Lifetime.cycle r) = Ret (Lifetime.cycle (r + N.of_nat k)).
Proof.
  induction k as [|k IH]; intros r Hr.
  - cbn. rewrite N.add_0_r. reflexivity.
  - cbn [Lifetime.AddRef_times]. rewrite AddRef_cycle by lia. cbn [bind].
    rewrite IH by lia. do 2 f_equal. lia.
Qed.

Lemma Release_times_cycle (k : nat) : forall r : DWORD,
  N.of_nat k < r -> r < DWORD_modulus ->
  Lifetime.Release_times k (Lifetime.cycle r) = Ret (Lifetime.cycle (r - N.of_nat k)).
Proof.
  induction k as [|k IH]; intros r Hk Hr.
  - cbn. rewrite N.sub_0_r. reflexivity.
  - cbn [Lifetime.Release_times]. rewrite Release_cycle by lia. cbn [bind].
    rewrite IH by lia. do 2 f_equal. lia.
Qed.

Lemma Release_times_shut_down (k : nat) : forall r : DWORD,
  N.of_nat k < r -> r < DWORD_modulus ->
  Lifetime.Release_times k (Lifetime.shut_down r)
  = Ret (Lifetime.shut_down (r - N.of_nat k)).
Proof.
  induction k as [|k IH]; intros r Hk Hr.
  - cbn. rewrite N.sub_0_r. reflexivity.
  - cbn [Lifetime.Release_times]. rewrite Release_shut_down by lia. cbn [bind].
    rewrite IH by lia. do 2 f_equal. lia.
Qed.

Lemma Release_times_snoc (k : nat) : forall h : Lifetime.objects,
  Lifetime.Release_times (S k) h
  = ' h <- Lifetime.Release_times k h ;;
    ' (_, h) <- Lifetime.Release Lifetime.TheRenderer h ;; Ret h.
Proof.
  induction k as [|k IH]; intros h.
  - cbn. destruct (Lifetime.Release_at 2 Lifetime.TheRenderer h) as [[n h1]|];
      reflexivity.
  - change (Lifetime.Release_times (S (S k)) h)
      with (' (_, h) <- Lifetime.Release Lifetime.TheRenderer h ;;
            Lifetime.Release_times (S k) h).
    cbn [Lifetime.Release_times].
    destruct (Lifetime.Release Lifetime.TheRenderer h) as [[n h1]|]; [|reflexivity].
    cbn [bind]. apply IH.
Qed.

(** Shutdown breaks the reference cycle.  After a successful
    CreateInstance, a caller that takes [k] further references and then
    releases all [k + 1] of its references without Shutdown leaves both
    objects alive, each held by the other.  When Shutdown is called
    first, the stream sink is deleted by Shutdown and the renderer by
    the caller's last Release, with no fault; a second Shutdown releases
    nothing. *)
Theorem Shutdown_breaks_the_reference_cycle (iid : Lifetime.IID) (k : nat) :
  Lifetime.answers Lifetime.TheRenderer iid = true ->
  N.of_nat k + 2 < DWORD_modulus ->
  exists h0,
    Lifetime.CreateInstance iid true = Ret (S_OK, h0)
    /\ (' h <- Lifetime.AddRef_times k h0 ;; Lifetime.Release_times (S k) h)
       = Ret (Lifetime.cycle 1)
    /\ (' h <- Lifetime.AddRef_times k h0 ;;
        ' h <- Lifetime.Shutdown h ;;
        Lifetime.Release_times (S k) h)
       = Ret Lifetime.no_objects
    /\ (' h <- Lifetime.AddRef_times k h0 ;;
        ' h <- Lifetime.Shutdown h ;;
        Lifetime.Shutdown h)
       = Ret (Lifetime.shut_down (1 + N.of_nat k)).
Proof.
  intros Hiid Hk. exists (Lifetime.cycle 2).
  split.
  { destruct iid; try discriminate Hiid; vm_compute; reflexivity. }
  rewrite (AddRef_times_cycle k 2) by lia. cbn [bind].
  split; [|split].
  - rewrite Release_times_cycle by lia. do 2 f_equal. lia.
  - rewrite Shutdown_cycle by lia. cbn [bind].
    rewrite Release_times_snoc.
    rewrite Release_times_shut_down by lia. cbn [bind].
    replace (2 + N.of_nat k - 1 - N.of_nat k) with 1 by lia.
    vm_compute. reflexivity.
  - rewrite Shutdown_cycle by lia. cbn [bind].
    replace (2 + N.of_nat k - 1) with (1 + N.of_nat k) by lia.
    reflexivity.
Qed.

Lemma Shutdown_breaks_the_reference_cycle_witness :
  Lifetime.answers Lifetime.TheRenderer Lifetime.IID_IMFMediaSink = true
  /\ N.of_nat 2 + 2 < DWORD_modulus
  /\ Lifetime.CreateInstance Lifetime.IID_IMFMediaSink true
     = Ret (S_OK, Lifetime.cycle 2)
  /\ (' h <- Lifetime.AddRef_times 2 (Lifetime.cycle 2) ;; Lifetime.Release_times 3 h)
     = Ret (Lifetime.cycle 1)
  /\ (' h <- Lifetime.AddRef_times 2 (Lifetime.cycle 2) ;;
      ' h <- Lifetime.Shutdown h ;;
      Lifetime.Release_times 3 h)
     = Ret Lifetime.no_objects.
Proof.
  assert (Hk : N.of_nat 2 + 2 < DWORD_modulus) by reflexivity.
  destruct (Shutdown_breaks_the_reference_cycle Lifetime.IID_IMFMediaSink 2 eq_refl Hk)
    as (h0 & Hcreate & Hleak & Hfreed & _).
  assert (Hh0 : h0 = Lifetime.cycle 2).
  { assert (H : Lifetime.CreateInstance Lifetime.IID_IMFMediaSink true
                = Ret (S_OK, Lifetime.cycle 2)) by (vm_compute; reflexivity).
    rewrite H in Hcreate. injection Hcreate as <-. reflexivity. }
  subst h0.
  split; [reflexivity|]. split; [exact Hk|]. split; [exact Hcreate|].
  split; [exact Hleak|exact Hfreed].
Defined.

(** ** Repeating a lifecycle call *)

(** An accepted Pause or Stop can be repeated: the second call is
    accepted too and changes nothing more.  An accepted Restart cannot:
    the sink is then in state Started, from which Restart is rejected.
    After an accepted Stop, Pause and Restart are rejected. *)
Theorem lifecycle_calls_repeated (this : t) :
  (fst (Pause this) = S_OK -> Pause (snd (Pause this)) = Pause this)
  /\ (fst (Stop this) = S_OK -> Stop (snd (Stop this)) = Stop this)
  /\ (fst (Restart this) = S_OK ->
      Restart (snd (Restart this)) = (MF_E_INVALIDREQUEST, snd (Restart this)))
  /\ (fst (Stop this) = S_OK ->
      Pause (snd (Stop this)) = (MF_E_INVALIDREQUEST, snd (Stop this))
      /\ Restart (snd (Stop this)) = (MF_E_INVALIDREQUEST, snd (Stop this))).
Proof.
  destruct this as [sink shut type queue state pp dxgi c n w].
  destruct state; cbn; repeat split; intros H; try discriminate H; try reflexivity.
Qed.

(** ** Null pointers on the stream sink *)

(** The stream sink never dereferences a null pointer of its own.  From
    a sink that holds its event queue while live (as the constructor
    leaves it), every sequence of calls returns, whatever the states it
    goes through and however many samples arrive, provided no
    ProcessSample is handed a null sample; and the sink still holds its
    queue while live. *)
Theorem stream_sink_calls_return (calls : list Call) (this : t) :
  queue_held this ->
  samples_not_null calls = true ->
  exists this', run calls this = Ret this' /\ queue_held this'.
Proof. intros Hheld Hnotnull. exact (run_returns calls this Hheld Hnotnull). Qed.

Lemma stream_sink_calls_return_witness :
  queue_held new
  /\ samples_not_null overdrawn_calls = true
  /\ exists this', run overdrawn_calls new = Ret this' /\ queue_held this'.
Proof.
  assert (Hheld : queue_held new) by (intros _; discriminate).
  split; [exact Hheld|]. split; [reflexivity|].
  exact (stream_sink_calls_return overdrawn_calls new Hheld eq_refl).
Defined.
